(** * RustCompleter: the racerd supervision and request layer of ycmd

    A shallow embedding of [ycmd/completers/rust/rust_completer.py].
    The completer object is a record of its attributes; the operating
    system, the file system and the HTTP stack live in a [World] that every
    method threads through, together with the completer itself.  A raised
    Python exception is an [Outcome]; the attributes assigned before the
    [raise] stay assigned, as they do in Python. *)

From Stdlib Require Import ZArith NArith List String Ascii Lia.
From Stdlib.Strings Require Import Byte.
From stdpp Require Import base gmap strings list pretty.

Set Warnings "-register-all".

Local Open Scope string_scope.
Local Open Scope Z_scope.

(** ** Python values *)

Module Py.

(** The exception classes that can reach this file: the builtins it raises
    or provokes, and the classes of [requests.exceptions]. *)
Inductive ExnClass :=
  | Exception_
  | RuntimeError
  | AttributeError
  | TypeError
  | LookupError
  | KeyError
  | IndexError
  | ValueError
  | OSError
  | RequestException
  | HTTPError
  | ConnectionError
  | ProxyError
  | SSLError
  | Timeout
  | ConnectTimeout
  | ReadTimeout
  | MissingSchema
  | InvalidURL
  | JSONDecodeError.

#[global] Instance ExnClass_eq_dec : EqDecision ExnClass.
Proof. solve_decision. Defined.

(** The direct base classes, as the interpreter and [requests] declare them. *)
Definition bases (c : ExnClass) : list ExnClass :=
  match c with
  | Exception_ => []
  | RuntimeError | AttributeError | TypeError | LookupError
  | ValueError | OSError => [Exception_]
  | KeyError | IndexError => [LookupError]
  | RequestException => [OSError]
  | HTTPError | ConnectionError | Timeout => [RequestException]
  | ProxyError | SSLError => [ConnectionError]
  | ConnectTimeout => [ConnectionError; Timeout]
  | ReadTimeout => [Timeout]
  | MissingSchema | InvalidURL => [RequestException; ValueError]
  | JSONDecodeError => [ValueError]
  end.

(** [issubclass c d]: [d] is [c] or one of its ancestors.  The hierarchy is
    four levels deep, so four unfoldings of [bases] reach every ancestor. *)
Fixpoint ancestors (depth : nat) (c : ExnClass) : list ExnClass :=
  match depth with
  | O => [c]
  | S k => c :: flat_map (ancestors k) (bases c)
  end.

Definition issubclass (c d : ExnClass) : bool :=
  bool_decide (d ∈ ancestors 4 c).

Record Exn := mkExn { exn_class : ExnClass; exn_msg : string }.

(** What a call yields: a value, or a raised exception. *)
Inductive Outcome (A : Type) :=
  | Return (a : A)
  | Raise (e : Exn).
Arguments Return {A} a.
Arguments Raise {A} e.

(** A decoded JSON document, which is also the shape of every Python value
    the completer reads out of a response.  Numbers are integers: racerd
    sends lines and columns only. *)
Inductive Json :=
  | JNull
  | JBool (b : bool)
  | JNum (n : Z)
  | JStr (s : string)
  | JArr (items : list Json)
  | JObj (members : list (string * Json)).

(** Python's truth value testing ([if x], [not x]). *)
Definition truthy (v : Json) : bool :=
  match v with
  | JNull => false
  | JBool b => b
  | JNum n => negb (n =? 0)
  | JStr s => negb (String.eqb s "")
  | JArr items => negb (bool_decide (length items = 0%nat))
  | JObj members => negb (bool_decide (length members = 0%nat))
  end.

Definition truthy_str (s : option string) : bool :=
  match s with
  | None => false
  | Some s => negb (String.eqb s "")
  end.

Fixpoint assoc (k : string) (members : list (string * Json)) : option Json :=
  match members with
  | [] => None
  | (k', v) :: rest => if String.eqb k k' then Some v else assoc k rest
  end.

(** [v[key]] for a string key. *)
Definition getitem (v : Json) (key : string) : Outcome Json :=
  match v with
  | JObj members =>
      match assoc key members with
      | Some x => Return x
      | None => Raise (mkExn KeyError key)
      end
  | JStr _ => Raise (mkExn TypeError "string indices must be integers")
  | JArr _ => Raise (mkExn TypeError "list indices must be integers or slices, not str")
  | _ => Raise (mkExn TypeError "object is not subscriptable")
  end.

(** [v + 1]. *)
Definition add1 (v : Json) : Outcome Json :=
  match v with
  | JNum n => Return (JNum (n + 1))
  | JBool b => Return (JNum ((if b then 1 else 0) + 1))
  | _ => Raise (mkExn TypeError "unsupported operand type(s) for +")
  end.

Fixpoint chars (s : string) : list Json :=
  match s with
  | EmptyString => []
  | String a rest => JStr (String a EmptyString) :: chars rest
  end.

(** [for x in v]: the items of a list, the keys of a dict, the characters
    of a string; anything else is not iterable. *)
Definition iter (v : Json) : Outcome (list Json) :=
  match v with
  | JArr items => Return items
  | JObj members => Return (map (λ kv, JStr (fst kv)) members)
  | JStr s => Return (chars s)
  | _ => Raise (mkExn TypeError "object is not iterable")
  end.

(** [str(x)] inside [str.format] for an attribute that may be [None]. *)
Definition str_opt (s : option string) : string :=
  match s with
  | None => "None"
  | Some s => s
  end.

End Py.

(** ** Byte strings: [ycmd.utils.ToBytes], [binascii], [base64], [os.urandom] *)

Module Codec.

(** Modelled from the spec: [ycmd.utils.ToBytes] is not in this file.  It
    gives the empty byte string for a falsy value ([None], [''] ) and the
    UTF-8 bytes of a text string otherwise. *)
Definition ToBytes (value : option string) : list byte :=
  match value with
  | None => []
  | Some s => list_byte_of_string s
  end.

Definition hex_digit (n : N) : ascii :=
  nth (N.to_nat n) (list_ascii_of_string "0123456789abcdef") "0"%char.

(** [binascii.hexlify]: two lower-case hexadecimal digits per byte. *)
Fixpoint hexlify (bs : list byte) : string :=
  match bs with
  | [] => ""
  | b :: rest =>
      String (hex_digit (Byte.to_N b / 16))
        (String (hex_digit (Byte.to_N b mod 16)) (hexlify rest))
  end.

Definition b64_alphabet : list byte :=
  list_byte_of_string
    "ABCDEFGHIJKLMNOPQRSTUVWXYZabcdefghijklmnopqrstuvwxyz0123456789+/".

Definition b64_char (n : N) : byte :=
  nth (N.to_nat (n mod 64)) b64_alphabet "="%byte.

(** [base64.b64encode]: every three bytes become four characters of the
    standard alphabet, the last group padded with [=]. *)
Fixpoint b64encode (bs : list byte) : list byte :=
  match bs with
  | [] => []
  | [a] =>
      let n := (Byte.to_N a * 65536)%N in
      [b64_char (n / 262144); b64_char (n / 4096); "="%byte; "="%byte]
  | [a; b] =>
      let n := (Byte.to_N a * 65536 + Byte.to_N b * 256)%N in
      [b64_char (n / 262144); b64_char (n / 4096); b64_char (n / 64);
       "="%byte]
  | a :: b :: c :: rest =>
      let n := (Byte.to_N a * 65536 + Byte.to_N b * 256 + Byte.to_N c)%N in
      b64_char (n / 262144) :: b64_char (n / 4096) :: b64_char (n / 64)
        :: b64_char n :: b64encode rest
  end.

(** [os.urandom n] reads [n] bytes off the system's entropy source. *)
Definition urandom (entropy : nat → byte) (n : nat) : list byte :=
  map entropy (seq 0 n).

End Codec.

(** ** The world outside the completer *)

Import Py Codec.

(** A [subprocess.Popen] handle, identified by the process it stands for. *)
Definition Popen := positive.

(** One call of [requests.request]. *)
Record HttpRequest := mkRequest {
  req_method : list byte;
  req_url : list byte;
  req_data : list byte;
  req_headers : gmap string string }.

(** How [requests.request] answers: it raises, or it hands back a response
    with a status code and a body that decodes as JSON or does not. *)
Inductive NetReply :=
  | NetRaise (e : Exn)
  | NetResponse (status : Z) (body : option Json).

(** What the completer does to its surroundings, in order. *)
Inductive Event :=
  | EvWriteFile (path : string) (contents : list byte)
  | EvOpenLog (path : string)
  | EvSpawn (args : list string) (env : gmap string string) (pid : Popen)
  | EvTerminate (pid : Popen)
  | EvWait (pid : Popen)
  | EvUnlink (path : string)
  | EvRequest (req : HttpRequest).

Record World := mkWorld {
  alive : gset Popen;                   (* the processes the OS reports running *)
  files : gmap string (list byte);      (* the regular files and their contents *)
  environ : gmap string string;         (* os.environ *)
  events : list Event;                  (* oldest first *)
  network : list Event → HttpRequest → NetReply }.

(** The library calls [_StartServer] makes, in the order it makes them.
    Any of them may raise instead of returning. *)
Inductive LibCall :=
  | LibGetUnusedLocalhostPort
  | LibUrandom
  | LibNamedTemporaryFile
  | LibWrite
  | LibPathToCreatedTempDir
  | LibOpenStderr
  | LibOpenStdout
  | LibSafePopen.

(** What the operating system answers during one [_StartServer]. *)
Record StartEnv := mkStartEnv {
  env_port : N;                 (* utils.GetUnusedLocalhostPort() *)
  env_entropy : nat → byte;     (* the source behind os.urandom *)
  env_secret_file : string;     (* the name of the NamedTemporaryFile *)
  env_tmpdir : string;          (* utils.PathToCreatedTempDir() *)
  env_pid : Popen;              (* the process utils.SafePopen creates *)
  env_spawn_alive : bool;       (* is it still running when polled *)
  env_raises : LibCall → option Exn }.  (* the calls that raise, and what *)

(** ** The completer object *)

Record RustCompleter := mkCompleter {
  _racerd : string;
  _racerd_host : option string;
  _keep_logfiles : bool;
  _hmac_secret : list byte;
  _rust_source_path : option string;
  _racerd_phandle : option Popen;
  _server_stdout : option string;
  _server_stderr : option string }.

Definition set_racerd_host (v : option string) (self : RustCompleter) :=
  mkCompleter (_racerd self) v (_keep_logfiles self) (_hmac_secret self)
    (_rust_source_path self) (_racerd_phandle self) (_server_stdout self)
    (_server_stderr self).

Definition set_hmac_secret (v : list byte) (self : RustCompleter) :=
  mkCompleter (_racerd self) (_racerd_host self) (_keep_logfiles self) v
    (_rust_source_path self) (_racerd_phandle self) (_server_stdout self)
    (_server_stderr self).

Definition set_racerd_phandle (v : option Popen) (self : RustCompleter) :=
  mkCompleter (_racerd self) (_racerd_host self) (_keep_logfiles self)
    (_hmac_secret self) (_rust_source_path self) v (_server_stdout self)
    (_server_stderr self).

Definition set_server_stdout (v : option string) (self : RustCompleter) :=
  mkCompleter (_racerd self) (_racerd_host self) (_keep_logfiles self)
    (_hmac_secret self) (_rust_source_path self) (_racerd_phandle self) v
    (_server_stderr self).

Definition set_server_stderr (v : option string) (self : RustCompleter) :=
  mkCompleter (_racerd self) (_racerd_host self) (_keep_logfiles self)
    (_hmac_secret self) (_rust_source_path self) (_racerd_phandle self)
    (_server_stdout self) v.

(** ** Methods as state transformers

    A method reads and assigns attributes of [self], acts on the world, and
    returns or raises.  [_server_state_lock] is a re-entrant lock taken by
    one thread at a time; a single run of a method is what is modelled, so
    [with self._server_state_lock:] is the block it guards. *)

Definition M (A : Type) : Type :=
  RustCompleter → World → Outcome A * RustCompleter * World.

Definition ret {A} (a : A) : M A := λ self w, (Return a, self, w).

Definition raise {A} (e : Exn) : M A := λ self w, (Raise e, self, w).

Definition bind {A B} (m : M A) (k : A → M B) : M B :=
  λ self w,
    match m self w with
    | (Return a, self', w') => k a self' w'
    | (Raise e, self', w') => (Raise e, self', w')
    end.

(** [try: m  except cls: handler] *)
Definition try_except {A} (m : M A) (cls : ExnClass) (handler : Exn → M A)
  : M A :=
  λ self w,
    match m self w with
    | (Raise e, self', w') =>
        if issubclass (exn_class e) cls then handler e self' w'
        else (Raise e, self', w')
    | r => r
    end.

Definition attr {A} (f : RustCompleter → A) : M A :=
  λ self w, (Return (f self), self, w).

Definition assign (f : RustCompleter → RustCompleter) : M unit :=
  λ self w, (Return tt, f self, w).

Definition ask {A} (f : World → A) : M A :=
  λ self w, (Return (f w), self, w).

Definition act (f : World → World) : M unit :=
  λ self w, (Return tt, self, f w).

Definition lift {A} (o : Outcome A) : M A := λ self w, (o, self, w).

Notation "x <- m ;; k" := (bind m (λ x, k))
  (at level 100, m at next level, right associativity).
Notation "m ;; k" := (bind m (λ _, k))
  (at level 100, right associativity).

Definition when (b : bool) (m : M unit) : M unit := if b then m else ret tt.

Definition emit (ev : Event) (w : World) : World :=
  mkWorld (alive w) (files w) (environ w) (events w ++ [ev]) (network w).

(** ** Library calls the completer makes *)

(** Modelled from the spec: [ycmd.utils.ProcessIsRunning] is not in this
    file.  The OS reports the process behind the handle as alive; an absent
    handle is not running. *)
Definition ProcessIsRunning (handle : option Popen) (w : World) : bool :=
  match handle with
  | None => false
  | Some pid => bool_decide (pid ∈ alive w)
  end.

(** [os.path.exists] and [os.path.isfile] on the files of the world. *)
Definition p_exists (path : string) (w : World) : bool :=
  bool_decide (path ∈ dom (files w)).

Definition os_unlink (path : string) : M unit :=
  act (λ w, emit (EvUnlink path)
              (mkWorld (alive w) (delete path (files w)) (environ w)
                 (events w) (network w))).

(** [secret_file.write(data)] on a fresh [NamedTemporaryFile(delete=False)]. *)
Definition write_file (path : string) (data : list byte) : M unit :=
  act (λ w, emit (EvWriteFile path data)
              (mkWorld (alive w) (<[path := data]> (files w)) (environ w)
                 (events w) (network w))).

(** Modelled from the spec: [ycmd.utils.OpenForStdHandle] is not in this
    file.  It opens a log sink by truncating or creating the file. *)
Definition OpenForStdHandle (path : string) : M unit :=
  act (λ w, emit (EvOpenLog path)
              (mkWorld (alive w) (<[path := []]> (files w)) (environ w)
                 (events w) (network w))).

(** Modelled from the spec: [ycmd.utils.SafePopen] is not in this file.  It
    spawns the process with the given arguments and environment; the OS
    decides which process that is and whether it is running afterwards. *)
Definition SafePopen (args : list string) (env : gmap string string)
    (os : StartEnv) : M Popen :=
  λ self w,
    let pid := env_pid os in
    let alive' := if env_spawn_alive os then alive w ∪ {[pid]}
                  else alive w ∖ {[pid]} in
    (Return pid, self,
     emit (EvSpawn args env pid)
       (mkWorld alive' (files w) (environ w) (events w) (network w))).

(** [handle.terminate()] followed by [handle.wait()]: the process is gone
    when [wait] returns. *)
Definition terminate (pid : Popen) : M unit :=
  act (emit (EvTerminate pid)).

Definition wait (pid : Popen) : M unit :=
  act (λ w, emit (EvWait pid)
              (mkWorld (alive w ∖ {[pid]}) (files w) (environ w) (events w)
                 (network w))).

Fixpoint ends_with_slash (s : string) : bool :=
  match s with
  | EmptyString => false
  | String a EmptyString => Ascii.eqb a "/"%char
  | String _ rest => ends_with_slash rest
  end.

(** [os.path.join a b] for a relative [b] (POSIX). *)
Definition p_join (a b : string) : string :=
  if String.eqb a "" || ends_with_slash a then a +:+ b
  else a +:+ "/" +:+ b.

(** Does the string hold a brace, the character [str.format] reads a
    replacement field or an escape from? *)
Fixpoint has_brace (s : string) : bool :=
  match s with
  | EmptyString => false
  | String a rest =>
      Ascii.eqb a "{"%char || Ascii.eqb a "}"%char || has_brace rest
  end.

(** A library call of [_StartServer]: it raises what the OS makes it
    raise, or it goes on. *)
Definition library {A} (c : LibCall) (os : StartEnv) (m : M A) : M A :=
  match env_raises os c with
  | Some e => raise e
  | None => m
  end.

(** [requests.request(method, url, data=..., headers=...)]. *)
Record Response := mkResponse {
  status_code : Z;
  body_json : option Json }.

Definition requests_request (method url data : list byte)
    (headers : gmap string string) : M Response :=
  λ self w,
    let req := mkRequest method url data headers in
    let w' := emit (EvRequest req) w in
    match network w (events w) req with
    | NetRaise e => (Raise e, self, w')
    | NetResponse status body => (Return (mkResponse status body), self, w')
    end.

(** [response.raise_for_status()]: client and server error statuses raise. *)
Definition raise_for_status (r : Response) : M unit :=
  if (400 <=? status_code r) && (status_code r <? 600)
  then raise (mkExn HTTPError (pretty (status_code r)))
  else ret tt.

(** [response.json()] *)
Definition response_json (r : Response) : M Json :=
  match body_json r with
  | Some j => ret j
  | None => raise (mkExn JSONDecodeError "Expecting value")
  end.

Definition no_content : Z := 204.

(** ** Module constants *)

Definition RACERD_HMAC_HEADER : string := "x-racerd-hmac".
Definition HMAC_SECRET_LENGTH : nat := 16.

(** The double quote character. *)
Definition dquote : string := String "034"%char EmptyString.

Definition BINARY_NOT_FOUND_MESSAGE : string :=
  "racerd binary not found. Did you build it? " +:+
  "You can do so by running " +:+
  dquote +:+ "./build.py --racer-completer" +:+ dquote +:+ ".".

Definition ERROR_FROM_RACERD_MESSAGE : string :=
  "Received error from racerd while retrieving completions. You did not " +:+
  "set the rust_src_path option, which is probably causing this issue. " +:+
  "See YCM docs for details.".

Definition nl : string := String (ascii_of_nat 10) EmptyString.

(** ** Requests and candidates *)

Record FileData := mkFileData { contents : string }.

(** The request the framework hands to the completer. *)
Record RequestData := mkRequestData {
  filepath : string;
  file_data : list (string * FileData);
  line_num : Z;
  column_num : Z }.

Record Buffer := mkBuffer {
  buf_contents : string;
  buf_file_path : string }.

(** The request racerd reads. *)
Record RacerdRequest := mkRacerdRequest {
  buffers : list Buffer;
  line : Z;
  column : Z;
  file_path : string }.

(** Modelled from the spec: [ycmd.responses.BuildCompletionData] is not in
    this file.  A candidate holds the text to insert, a kind tag, a
    human-readable context string and the optional extra data. *)
Record CompletionData := BuildCompletionData {
  insertion_text : Json;
  kind : Json;
  extra_menu_info : Json;
  extra_data : option (gmap string (gmap string Json)) }.

(** Modelled from the spec: [ycmd.responses.BuildGoToResponse] is not in
    this file.  A location is a path, a line and a 1-based column. *)
Record GoToResponse := BuildGoToResponse {
  goto_filepath : Json;
  goto_line_num : Json;
  goto_column_num : Json }.

(** ** The methods of [RustCompleter] *)

(** [ycmd.hmac_utils.CreateRequestHmac method path body secret],
    [json.dumps], [urllib.parse.urljoin base url] and [str.format] are not
    in this file; the methods are read for any such functions.
    [str_format template port std] stands for
    [template.format(port = port, std = std)], which returns or raises
    ([IndexError], [KeyError], [ValueError]) as the fields of the template
    have it. *)
Class Externals := {
  CreateRequestHmac :
    list byte → list byte → list byte → list byte → list byte;
  json_dumps : RacerdRequest → string;
  urljoin : list byte → list byte → list byte;
  str_format : string → N → string → Outcome string }.

Section Completer.

Context {ext : Externals}.

Definition _ConvertToRacerdRequest (request_data : option RequestData)
  : option RacerdRequest :=
  match request_data with
  | None => None
  | Some request_data =>
      let file_path := filepath request_data in
      let buffers :=
        map (λ '(path, obj), mkBuffer (contents obj) path)
          (file_data request_data) in
      let line := line_num request_data in
      let col := column_num request_data - 1 in
      Some (mkRacerdRequest buffers line col file_path)
  end.

Definition _ExtraHeaders (method handler body : list byte)
  : M (gmap string string) :=
  let body := match body with [] => [] | _ => body end in
  secret <- attr _hmac_secret ;;
  let hmac := CreateRequestHmac method handler body secret in
  let final_hmac_value := hexlify hmac in
  let extra_headers : gmap string string :=
    {[ "content-type" := "application/json" ]} in
  let extra_headers := <[RACERD_HMAC_HEADER := final_hmac_value]> extra_headers in
  ret extra_headers.

Definition _GetResponse (handler : string)
    (request_data : option RequestData) (method : string) : M Json :=
  let handler := ToBytes (Some handler) in
  let method := ToBytes (Some method) in
  host <- attr _racerd_host ;;
  let url := urljoin (ToBytes host) handler in
  let parameters := _ConvertToRacerdRequest request_data in
  let body := match parameters with
              | Some parameters => ToBytes (Some (json_dumps parameters))
              | None => []
              end in
  extra_headers <- _ExtraHeaders method handler body ;;
  response <- requests_request method url body extra_headers ;;
  raise_for_status response ;;
  if status_code response =? no_content then ret JNull
  else response_json response.

Definition _GetExtraData (completion : Json)
  : M (option (gmap string (gmap string Json))) :=
  let location : gmap string Json := ∅ in
  file_path <- lift (getitem completion "file_path") ;;
  let location := if truthy file_path
                  then <["filepath" := file_path]> location
                  else location in
  line <- lift (getitem completion "line") ;;
  let location := if truthy line
                  then <["line_num" := line]> location
                  else location in
  column <- lift (getitem completion "column") ;;
  location <- (if truthy column
               then (column1 <- lift (add1 column) ;;
                     ret (<["column_num" := column1]> location))
               else ret location) ;;
  if negb (bool_decide (size location = 0%nat))
  then ret (Some {[ "location" := location ]})
  else ret None.

Definition _FetchCompletions (request_data : option RequestData) : M Json :=
  _GetResponse "/list_completions" request_data "POST".

(** [[ f(x) for x in xs ]] *)
Fixpoint comprehension {A B} (f : A → M B) (xs : list A) : M (list B) :=
  match xs with
  | [] => ret []
  | x :: rest =>
      y <- f x ;;
      ys <- comprehension f rest ;;
      ret (y :: ys)
  end.

Definition ComputeCandidatesInner (request_data : option RequestData)
  : M (list CompletionData) :=
  completions <-
    try_except (_FetchCompletions request_data) HTTPError
      (λ e,
         src <- attr _rust_source_path ;;
         if negb (truthy_str src)
         then raise (mkExn RuntimeError ERROR_FROM_RACERD_MESSAGE)
         else raise e) ;;
  if negb (truthy completions) then ret []
  else
    items <- lift (iter completions) ;;
    comprehension
      (λ completion,
         text <- lift (getitem completion "text") ;;
         kind <- lift (getitem completion "kind") ;;
         context <- lift (getitem completion "context") ;;
         extra <- _GetExtraData completion ;;
         ret (BuildCompletionData text kind context extra))
      items.

Definition ServerIsRunning : M bool :=
  host <- attr _racerd_host ;;
  handle <- attr _racerd_phandle ;;
  running <- ask (ProcessIsRunning handle) ;;
  ret (truthy_str host && running).

Definition _CreateHmacSecret (os : StartEnv) : M (list byte) :=
  library LibUrandom os
    (ret (b64encode (urandom (env_entropy os) HMAC_SECRET_LENGTH))).

Definition log_name (port : N) (std : string) : string :=
  "racerd_" +:+ pretty port +:+ "_" +:+ std +:+ ".log".

(** [filename_format.format( port = port, std = std )], where
    [filename_format] is [dir] joined with ['racerd_{port}_{std}.log'].
    The whole joined path is the template.  When [dir] holds no brace the
    two fields of the file name are all there is to fill in; what
    [str.format] makes of a brace in [dir] (another field, an escape, an
    error) is [str_format]'s to say. *)
Definition format_log (dir : string) (port : N) (std : string)
  : Outcome string :=
  let filename_format := p_join dir "racerd_{port}_{std}.log" in
  if has_brace dir then str_format filename_format port std
  else Return (p_join dir (log_name port std)).

Definition _StartServer (os : StartEnv) : M unit :=
  port <- library LibGetUnusedLocalhostPort os (ret (env_port os)) ;;
  secret <- _CreateHmacSecret os ;;
  assign (set_hmac_secret secret) ;;
  secret_file <- library LibNamedTemporaryFile os
                   (ret (env_secret_file os)) ;;
  secret <- attr _hmac_secret ;;
  library LibWrite os (write_file secret_file secret) ;;
  racerd <- attr _racerd ;;
  let args := [ racerd; "serve"; "--port"; pretty port; "-l";
                "--secret-file"; secret_file ] in
  env <- ask environ ;;
  let env := <["RUST_BACKTRACE" := "1"]> env in
  src <- attr _rust_source_path ;;
  let args := if truthy_str src
              then (args ++ [ "--rust-src-path"; str_opt src ])%list
              else args in
  tmpdir <- library LibPathToCreatedTempDir os (ret (env_tmpdir os)) ;;
  out <- lift (format_log tmpdir port "stdout") ;;
  assign (set_server_stdout (Some out)) ;;
  err <- lift (format_log tmpdir port "stderr") ;;
  assign (set_server_stderr (Some err)) ;;
  fstderr <- attr _server_stderr ;;
  library LibOpenStderr os (OpenForStdHandle (str_opt fstderr)) ;;
  fstdout <- attr _server_stdout ;;
  library LibOpenStdout os (OpenForStdHandle (str_opt fstdout)) ;;
  handle <- library LibSafePopen os (SafePopen args env os) ;;
  assign (set_racerd_phandle (Some handle)) ;;
  assign (set_racerd_host (Some ("http://127.0.0.1:" +:+ pretty port))) ;;
  running <- ServerIsRunning ;;
  if negb running
  then raise (mkExn RuntimeError "Failed to start racerd!")
  else ret tt.

Definition ServerIsReady : M bool :=
  running <- ServerIsRunning ;;
  if negb running then ret false
  else
    try_except (_GetResponse "/ping" None "GET" ;; ret true)
      ConnectionError (λ e, ret false).

Definition _StopServer : M unit :=
  handle <- attr _racerd_phandle ;;
  match handle with
  | Some pid =>
      terminate pid ;;
      wait pid ;;
      assign (set_racerd_phandle None) ;;
      assign (set_racerd_host None)
  | None => ret tt
  end ;;
  keep <- attr _keep_logfiles ;;
  when (negb keep)
    ((* Remove stdout log *)
     out <- attr _server_stdout ;;
     present <- ask (p_exists (str_opt out)) ;;
     when (truthy_str out && present)
       (os_unlink (str_opt out) ;;
        assign (set_server_stdout None)) ;;
     (* Remove stderr log *)
     err <- attr _server_stderr ;;
     present <- ask (p_exists (str_opt err)) ;;
     when (truthy_str err && present)
       (os_unlink (str_opt err) ;;
        assign (set_server_stderr None))).

Definition _RestartServer (os : StartEnv) : M unit :=
  running <- ServerIsRunning ;;
  when running _StopServer ;;
  _StartServer os.

Definition _GoToDefinition (request_data : option RequestData)
  : M GoToResponse :=
  try_except
    (definition <- _GetResponse "/find_definition" request_data "POST" ;;
     file_path <- lift (getitem definition "file_path") ;;
     line <- lift (getitem definition "line") ;;
     column <- lift (getitem definition "column") ;;
     column1 <- lift (add1 column) ;;
     ret (BuildGoToResponse file_path line column1))
    Exception_
    (λ e, raise (mkExn RuntimeError "Can't jump to definition.")).

Definition Shutdown : M unit := _StopServer.

Definition DebugInfo : M string :=
  running <- ServerIsRunning ;;
  if running then
    host <- attr _racerd_host ;;
    racerd <- attr _racerd ;;
    out <- attr _server_stdout ;;
    err <- attr _server_stderr ;;
    ret ("racerd" +:+ nl +:+
         "  listening at: " +:+ str_opt host +:+ nl +:+
         "  racerd path: " +:+ racerd +:+ nl +:+
         "  stdout log: " +:+ str_opt out +:+ nl +:+
         "  stderr log: " +:+ str_opt err)
  else
    out <- attr _server_stdout ;;
    err <- attr _server_stderr ;;
    if truthy_str out && truthy_str err
    then raise (mkExn AttributeError
                  "'tuple' object has no attribute 'format'")
    else ret "racerd is not running".

Definition SupportedFiletypes : list string := [ "rust" ].





(** What [urllib.parse.urljoin] gives for the bases and references of this
    file: on a base [http://127.0.0.1:<port>], each of the three absolute
    paths the completer asks for is appended to the base. *)
Definition joins_loopback : Prop :=
  ∀ (port : N) (handler : string),
    handler = "/ping" ∨ handler = "/list_completions"
    ∨ handler = "/find_definition" →
    urljoin (ToBytes (Some ("http://127.0.0.1:" +:+ pretty port)))
      (ToBytes (Some handler))
    = (ToBytes (Some ("http://127.0.0.1:" +:+ pretty port))
       ++ ToBytes (Some handler))%list.

(** The call of [requests.request] that [_GetResponse handler request_data
    method] makes on a completer in state [self] (see
    [GetResponse_requests] for the proof that it is that one). *)
Definition request_of (handler : string) (request_data : option RequestData)
    (method : string) (self : RustCompleter) : HttpRequest :=
  let body := match _ConvertToRacerdRequest request_data with
              | Some parameters => ToBytes (Some (json_dumps parameters))
              | None => []
              end in
  mkRequest (ToBytes (Some method))
    (urljoin (ToBytes (_racerd_host self)) (ToBytes (Some handler)))
    body
    (<[RACERD_HMAC_HEADER :=
         hexlify (CreateRequestHmac (ToBytes (Some method))
                    (ToBytes (Some handler)) body (_hmac_secret self))]>
       {[ "content-type" := "application/json" ]}).

(** ** A session: what happens between two starts *)

(** The entry points other than the two that start a server, and whatever
    the rest of the machine does to processes, files and the environment in
    the meantime. *)
Inductive Call :=
  | CallComputeCandidatesInner (request_data : option RequestData)
  | CallGoToDefinition (request_data : option RequestData)
  | CallGetResponse (handler : string) (request_data : option RequestData)
      (method : string)
  | CallStopServer
  | CallShutdown
  | CallServerIsRunning
  | CallServerIsReady
  | CallDebugInfo
  | Outside (alive' : gset Popen) (files' : gmap string (list byte))
      (environ' : gmap string string).

Definition after {A} (r : Outcome A * RustCompleter * World)
  : RustCompleter * World :=
  (snd (fst r), snd r).

Definition perform (c : Call) (st : RustCompleter * World)
  : RustCompleter * World :=
  let '(self, w) := st in
  match c with
  | CallComputeCandidatesInner rd => after (ComputeCandidatesInner rd self w)
  | CallGoToDefinition rd => after (_GoToDefinition rd self w)
  | CallGetResponse handler rd method =>
      after (_GetResponse handler rd method self w)
  | CallStopServer => after (_StopServer self w)
  | CallShutdown => after (Shutdown self w)
  | CallServerIsRunning => after (ServerIsRunning self w)
  | CallServerIsReady => after (ServerIsReady self w)
  | CallDebugInfo => after (DebugInfo self w)
  | Outside alive' files' environ' =>
      (self, mkWorld alive' files' environ' (events w) (network w))
  end.

Definition session (calls : list Call) (st : RustCompleter * World)
  : RustCompleter * World :=
  fold_left (λ st c, perform c st) calls st.

(** A request carrying the code of its own method and body, for some path,
    under [secret]. *)
Definition signed_under (secret : list byte) (req : HttpRequest) : Prop :=
  ∃ handler : list byte,
    req_headers req !! RACERD_HMAC_HEADER
    = Some (hexlify
              (CreateRequestHmac (req_method req) handler (req_data req)
                 secret)).

(** What one event of a session may be: a request signed under [secret],
    the end of the process, or the removal of a log; nothing is spawned and
    no secret is written. *)
Definition session_event (secret : list byte) (ev : Event) : Prop :=
  match ev with
  | EvRequest req => signed_under secret req
  | EvTerminate _ | EvWait _ | EvUnlink _ => True
  | EvWriteFile _ _ | EvOpenLog _ | EvSpawn _ _ _ => False
  end.

End Completer.

(** ** Construction *)

Record UserOptions := mkUserOptions {
  racerd_binary_path : option string;
  server_keep_logfiles : bool;
  rust_src_path : option string }.

(** Where this installation keeps racerd: the two build outputs under
    [third_party], and [utils.PathToFirstExistingExecutable(['racerd'])]. *)
Record Site := mkSite {
  RACERD_BINARY_RELEASE : string;
  RACERD_BINARY_DEBUG : string;
  racerd_on_path : option string }.

Definition FindRacerdBinary (site : Site) (user_options : UserOptions)
    (w : World) : option string :=
  let racerd_user_binary := racerd_binary_path user_options in
  if truthy_str racerd_user_binary
     && p_exists (str_opt racerd_user_binary) w
  then racerd_user_binary
  else if p_exists (RACERD_BINARY_RELEASE site) w
  then Some (RACERD_BINARY_RELEASE site)
  else if p_exists (RACERD_BINARY_DEBUG site) w
  then Some (RACERD_BINARY_DEBUG site)
  else racerd_on_path site.

Definition _GetRustSrcPath (user_options : UserOptions) (w : World)
  : option string :=
  let rust_src_path := rust_src_path user_options in
  if truthy_str rust_src_path then rust_src_path
  else
    let env_key := "RUST_SRC_PATH" in
    match environ w !! env_key with
    | Some v => Some v
    | None => None
    end.

Section Construction.

Context {ext : Externals}.

(** [RustCompleter(user_options)].  The attributes [__init__] itself leaves
    unset are assigned by [_StartServer] before anything reads them. *)
Definition __init__ (site : Site) (user_options : UserOptions)
    (os : StartEnv) (w : World) : Outcome unit * RustCompleter * World :=
  let racerd := FindRacerdBinary site user_options w in
  let source := _GetRustSrcPath user_options w in
  let self :=
    mkCompleter (str_opt racerd) None (server_keep_logfiles user_options)
      [] source None None None in
  if negb (truthy_str racerd)
  then (Raise (mkExn RuntimeError BINARY_NOT_FOUND_MESSAGE), self, w)
  else _StartServer os self w.

End Construction.


(** ** What a start leaves behind

    The attributes and the world after [_StartServer os], written out; that
    [_StartServer] produces them is [StartServer_run] below. *)

Definition spawn_args (os : StartEnv) (self : RustCompleter) : list string :=
  if truthy_str (_rust_source_path self)
  then [ _racerd self; "serve"; "--port"; pretty (env_port os); "-l";
         "--secret-file"; env_secret_file os;
         "--rust-src-path"; str_opt (_rust_source_path self) ]
  else [ _racerd self; "serve"; "--port"; pretty (env_port os); "-l";
         "--secret-file"; env_secret_file os ].

Definition session_secret (os : StartEnv) : list byte :=
  b64encode (urandom (env_entropy os) HMAC_SECRET_LENGTH).

Definition session_host (os : StartEnv) : string :=
  "http://127.0.0.1:" +:+ pretty (env_port os).

Definition stdout_log (os : StartEnv) : string :=
  p_join (env_tmpdir os) (log_name (env_port os) "stdout").

Definition stderr_log (os : StartEnv) : string :=
  p_join (env_tmpdir os) (log_name (env_port os) "stderr").

Definition started_completer (os : StartEnv) (self : RustCompleter)
  : RustCompleter :=
  mkCompleter (_racerd self) (Some (session_host os)) (_keep_logfiles self)
    (session_secret os) (_rust_source_path self) (Some (env_pid os))
    (Some (stdout_log os)) (Some (stderr_log os)).

Definition start_events (os : StartEnv) (self : RustCompleter) (w : World)
  : list Event :=
  [ EvWriteFile (env_secret_file os) (session_secret os);
    EvOpenLog (stderr_log os);
    EvOpenLog (stdout_log os);
    EvSpawn (spawn_args os self) (<["RUST_BACKTRACE" := "1"]> (environ w))
      (env_pid os) ].

Definition started_world (os : StartEnv) (self : RustCompleter) (w : World)
  : World :=
  mkWorld
    (if env_spawn_alive os then alive w ∪ {[env_pid os]}
     else alive w ∖ {[env_pid os]})
    (<[stdout_log os := []]>
       (<[stderr_log os := []]>
          (<[env_secret_file os := session_secret os]> (files w))))
    (environ w)
    (events w ++ start_events os self w)
    (network w).

(** A start that nothing keeps from reaching its liveness check: every
    library call returns, and the temp dir holds no brace, so that the log
    paths format to the file names. *)
Definition unhindered (os : StartEnv) : Prop :=
  (∀ c, env_raises os c = None) ∧ has_brace (env_tmpdir os) = false.


(** The options with [racerd_binary_path] left unset. *)
Definition without_binary_path (user_options : UserOptions) : UserOptions :=
  mkUserOptions None (server_keep_logfiles user_options)
    (rust_src_path user_options).

(** A candidate as racerd sends it: an object with all six keys and an
    integer column. *)
Definition complete_candidate (item : Json) : Prop :=
  ∃ t k c f l (n : Z),
    getitem item "text" = Return t
    ∧ getitem item "kind" = Return k
    ∧ getitem item "context" = Return c
    ∧ getitem item "file_path" = Return f
    ∧ getitem item "line" = Return l
    ∧ getitem item "column" = Return (JNum n).

(** A computation that leaves the completer and the world as they are. *)
Definition quiet {A} (m : M A) : Prop :=
  ∀ self w, after (m self w) = (self, w).

(** ** Concrete situations used in the examples below *)

Module Fixture.

Definition refused : Exn := mkExn ConnectionError "Connection refused".

(** Stand-ins for the functions the methods are read over.  [urljoin] is
    as the library has it for the inputs of the examples: the reference for
    an empty base, and the base followed by the path for an absolute path
    without dot segments on a base [scheme://host:port].  [str_format] is
    as [str.format] answers a template with a positional field such as
    [{0}] when it is given keyword arguments only. *)
Definition externals : Externals :=
  {| CreateRequestHmac method path body secret :=
       (secret ++ method ++ path ++ body)%list;
     json_dumps r := "{" +:+ file_path r +:+ "}";
     urljoin base url := match base with
                         | [] => url
                         | _ => (base ++ url)%list
                         end;
     str_format template port std :=
       Raise (mkExn IndexError "tuple index out of range") |}.

#[local] Existing Instance externals.

(** A machine with racerd built, nothing running, and no server to talk
    to: every request is refused. *)
Definition site : Site :=
  mkSite "/ycmd/third_party/racerd/target/release/racerd"
    "/ycmd/third_party/racerd/target/debug/racerd" None.

Definition offline : World :=
  mkWorld ∅ {[ "/ycmd/third_party/racerd/target/release/racerd" := [] ]} ∅ []
    (λ _ _, NetRaise refused).

(** A server that answers every request with [reply]. *)
Definition answering (reply : NetReply) : World :=
  mkWorld ∅ {[ "/ycmd/third_party/racerd/target/release/racerd" := [] ]} ∅ []
    (λ _ _, reply).

Definition os (spawn_alive : bool) : StartEnv :=
  mkStartEnv 4242
    (λ i, nth i (list_byte_of_string "0123456789abcdef") "000"%byte)
    "/tmp/tmpk3y9" "/tmp/ycm_temp" 77%positive spawn_alive (λ _, None).

(** The same answers, but the temp dir is [/tmp/ycm_{0}]. *)
Definition os_braces : StartEnv :=
  mkStartEnv 4242 (env_entropy (os true)) "/tmp/tmpk3y9" "/tmp/ycm_{0}"
    77%positive true (λ _, None).


(** A second start that goes well. *)
Definition os_again : StartEnv :=
  mkStartEnv 4343 (env_entropy (os true)) "/tmp/tmpq2" "/tmp/ycm_temp"
    78%positive true (λ _, None).

(** The completer as [__init__] has it when it calls [_StartServer]. *)
Definition blank : RustCompleter :=
  mkCompleter "/ycmd/third_party/racerd/target/release/racerd" None false []
    None None None None.

Definition options (keep_logfiles : bool) (src : option string)
  : UserOptions :=
  mkUserOptions None keep_logfiles src.

(** The completer and the world right after construction. *)
Definition constructed (keep_logfiles : bool) (src : option string)
    (w : World) : RustCompleter * World :=
  after (__init__ site (options keep_logfiles src) (os true) w).

(** Started, no source path configured, and nothing answers. *)
Definition unreachable : RustCompleter * World :=
  constructed false None offline.



(** Started with [server_keep_logfiles] on, then stopped. *)
Definition stopped_keeping_logs : RustCompleter * World :=
  let '(self, w) := constructed true None offline in
  after (_StopServer self w).

Definition request : RequestData :=
  mkRequestData "src/main.rs" [("src/main.rs", mkFileData "fn main() {}")]
    1 4.

Definition candidate (column : Z) : Json :=
  JObj [("text", JStr "push"); ("kind", JStr "Function");
        ("context", JStr "fn push(&mut self, value: T)");
        ("file_path", JStr "src/vec.rs"); ("line", JNum 3);
        ("column", JNum column)].

(** A machine whose only racerd is the file [binary]. *)
Definition answering_with_binary (binary : string) : World :=
  mkWorld ∅ {[ binary := [] ]} ∅ [] (λ _ _, NetRaise refused).

(** A machine with no racerd anywhere. *)
Definition bare : World := mkWorld ∅ ∅ ∅ [] (λ _ _, NetRaise refused).

(** Started, and racerd answers every request with [{"pong": true}]-like
    JSON. *)
Definition ready : RustCompleter * World :=
  constructed false None
    (answering (NetResponse 200 (Some (JObj [("pong", JBool true)])))).

End Fixture.

(** * Properties *)

(** ** The codecs and the exception classes on samples *)

Example hexlify_sample :
  Codec.hexlify (list_byte_of_string "Hi!") = "486921".
Proof. reflexivity. Qed.

Example b64encode_samples :
  Codec.b64encode (list_byte_of_string "Man") = list_byte_of_string "TWFu" ∧
  Codec.b64encode (list_byte_of_string "Ma") = list_byte_of_string "TWE=" ∧
  Codec.b64encode (list_byte_of_string "M") = list_byte_of_string "TQ==" ∧
  Codec.b64encode (list_byte_of_string "light work.")
    = list_byte_of_string "bGlnaHQgd29yay4=".
Proof. repeat split; reflexivity. Qed.

Example connection_errors_are_not_http_errors :
  issubclass ConnectTimeout ConnectionError = true
  ∧ issubclass ProxyError ConnectionError = true
  ∧ issubclass ConnectionError HTTPError = false
  ∧ issubclass HTTPError ConnectionError = false
  ∧ issubclass MissingSchema HTTPError = false
  ∧ issubclass HTTPError Exception_ = true.
Proof. repeat split; reflexivity. Qed.

(** ** Running a method by hand *)

Ltac run :=
  cbv beta delta
    [bind ret raise attr assign ask act lift when try_except] in *;
  cbn beta iota zeta in *.

(** ** C1: the location attached to a completion candidate *)

Lemma location_not_empty (k : string) (v : Json) (m : gmap string Json) :
  bool_decide (size (<[k := v]> m) = 0%nat) = false.
Proof.
  apply bool_decide_eq_false_2.
  intros H. apply map_size_empty_iff in H.
  by apply insert_non_empty in H.
Qed.

(** C1, as the code has it: [_GetExtraData] attaches a location as soon as
    one of file path, line and column is truthy in racerd's answer, and the
    location holds exactly the truthy ones, the column moved to 1-based. No
    location is attached only when all three are falsy. *)
Theorem GetExtraData_location
    (completion file_path line : Json) (column : Z)
    (self : RustCompleter) (w : World) :
  getitem completion "file_path" = Return file_path →
  getitem completion "line" = Return line →
  getitem completion "column" = Return (JNum column) →
  ∃ location : gmap string Json,
    location !! "filepath" = (if truthy file_path then Some file_path else None) ∧
    location !! "line_num" = (if truthy line then Some line else None) ∧
    location !! "column_num"
      = (if column =? 0 then None else Some (JNum (column + 1))) ∧
    (∀ k, is_Some (location !! k) →
          k = "filepath" ∨ k = "line_num" ∨ k = "column_num") ∧
    _GetExtraData completion self w
      = (Return (if truthy file_path || truthy line || negb (column =? 0)
                 then Some {[ "location" := location ]}
                 else None), self, w).
Proof.
  intros Hf Hl Hc.
  exists ((if column =? 0 then id else <["column_num" := JNum (column + 1)]>)
            ((if truthy line then <["line_num" := line]> else id)
               ((if truthy file_path then <["filepath" := file_path]> else id)
                  ∅))).
  unfold _GetExtraData. run.
  rewrite Hf, Hl, Hc. cbn [truthy add1].
  destruct (truthy file_path), (truthy line), (column =? 0); cbn;
    rewrite ?location_not_empty; cbn;
    (split_and!; [by simplify_map_eq .. | | reflexivity]);
    intros k [v Hk];
    repeat (apply lookup_insert_Some in Hk as [[<- _] | [_ Hk]]; [by auto |]);
    by rewrite lookup_empty in Hk.
Qed.

(** C1, as the claim has it, fails: with a file path and a line, a candidate
    whose column is 0 still gets a location, without a column. *)
Example column_zero_keeps_location :
  _GetExtraData (Fixture.candidate 0)
    (fst Fixture.unreachable) (snd Fixture.unreachable)
  = (Return (Some {[ "location" :=
                      {[ "filepath" := JStr "src/vec.rs";
                         "line_num" := JNum 3 ]} ]}),
     fst Fixture.unreachable, snd Fixture.unreachable)
  ∧ fst (fst (ComputeCandidatesInner (ext := Fixture.externals)
                (Some Fixture.request) (fst Fixture.unreachable)
                (Fixture.answering
                   (NetResponse 200 (Some (JArr [Fixture.candidate 0]))))))
    = Return
        [BuildCompletionData (JStr "push") (JStr "Function")
           (JStr "fn push(&mut self, value: T)")
           (Some {[ "location" :=
                      {[ "filepath" := JStr "src/vec.rs";
                         "line_num" := JNum 3 ]} ]})].
Proof. split; vm_compute; reflexivity. Qed.

Lemma GetExtraData_location_column_five :
  ∃ location : gmap string Json,
    location !! "filepath" = Some (JStr "src/vec.rs") ∧
    location !! "line_num" = Some (JNum 3) ∧
    location !! "column_num" = Some (JNum 6) ∧
    _GetExtraData (Fixture.candidate 5)
      (fst Fixture.unreachable) (snd Fixture.unreachable)
    = (Return (Some {[ "location" := location ]}),
       fst Fixture.unreachable, snd Fixture.unreachable).
Proof.
  destruct (GetExtraData_location (Fixture.candidate 5) (JStr "src/vec.rs")
              (JNum 3) 5 (fst Fixture.unreachable) (snd Fixture.unreachable)
              eq_refl eq_refl eq_refl)
    as (location & Hf & Hl & Hc & _ & Hrun).
  exists location. exact (conj Hf (conj Hl (conj Hc Hrun))).
Defined.

(** ** What [_GetResponse] does, in one equation *)

Section Requests.

Context {ext : Externals}.

Lemma falsy_body (body : list byte) :
  match body with [] => [] | _ => body end = body.
Proof. by destruct body. Qed.

(** One request goes out, built from the attributes as they are at the
    call; the answer decides the outcome; no attribute changes. *)
Lemma GetResponse_requests handler rd method self w :
  _GetResponse handler rd method self w =
    let req := request_of handler rd method self in
    let w' := emit (EvRequest req) w in
    match network w (events w) req with
    | NetRaise e => (Raise e, self, w')
    | NetResponse status body =>
        if (400 <=? status) && (status <? 600)
        then (Raise (mkExn HTTPError (pretty status)), self, w')
        else if status =? no_content then (Return JNull, self, w')
        else match body with
             | Some j => (Return j, self, w')
             | None => (Raise (mkExn JSONDecodeError "Expecting value"),
                        self, w')
             end
    end.
Proof.
  unfold _GetResponse, _ExtraHeaders, requests_request,
    raise_for_status, response_json, request_of.
  run. rewrite falsy_body.
  destruct (network w _ _) as [e | status body]; [done |].
  cbn [status_code body_json].
  destruct ((400 <=? status) && (status <? 600)); [done |].
  destruct (status =? no_content); [done |].
  by destruct body.
Qed.

Lemma GetResponse_self handler rd method self w :
  snd (fst (_GetResponse handler rd method self w)) = self.
Proof.
  rewrite GetResponse_requests. cbn zeta.
  destruct (network w _ _) as [e | status body]; [done |].
  destruct ((400 <=? status) && (status <? 600)); [done |].
  destruct (status =? no_content); [done |].
  by destruct body.
Qed.

Lemma GetResponse_events handler rd method self w :
  events (snd (_GetResponse handler rd method self w))
  = (events w ++ [EvRequest (request_of handler rd method self)])%list.
Proof.
  rewrite GetResponse_requests. cbn zeta.
  destruct (network w _ _) as [e | status body]; [done |].
  destruct ((400 <=? status) && (status <? 600)); [done |].
  destruct (status =? no_content); [done |].
  by destruct body.
Qed.

(** ** C2: which fetch errors become the misconfiguration error *)

Lemma connection_error_is_not_http_error (c : ExnClass) :
  issubclass c ConnectionError = true → issubclass c HTTPError = false.
Proof. destruct c; vm_compute; congruence. Qed.

(** C2, as the code has it: an error of the fetch is replaced by the
    misconfiguration error exactly when it is a [requests.HTTPError] (an
    error status) and no source path is configured; any other error, a
    connection-level failure among them, goes to the caller unchanged
    whether a source path is configured or not. *)
Theorem ComputeCandidatesInner_error_translation
    rd self w (e : Exn) self' w' :
  _FetchCompletions rd self w = (Raise e, self', w') →
  ComputeCandidatesInner rd self w
  = (Raise (if issubclass (exn_class e) HTTPError
               && negb (truthy_str (_rust_source_path self))
            then mkExn RuntimeError ERROR_FROM_RACERD_MESSAGE
            else e), self', w')
  ∧ (issubclass (exn_class e) ConnectionError = true →
     ComputeCandidatesInner rd self w = (Raise e, self', w')).
Proof.
  intros Hfetch.
  assert (self' = self) as ->.
  { pose proof (GetResponse_self "/list_completions" rd "POST" self w) as Hs.
    unfold _FetchCompletions in Hfetch. by rewrite Hfetch in Hs. }
  assert (ComputeCandidatesInner rd self w
          = (Raise (if issubclass (exn_class e) HTTPError
                       && negb (truthy_str (_rust_source_path self))
                    then mkExn RuntimeError ERROR_FROM_RACERD_MESSAGE
                    else e), self, w')) as Hrun.
  { unfold ComputeCandidatesInner. run. rewrite Hfetch.
    destruct (issubclass (exn_class e) HTTPError); [| done].
    by destruct (truthy_str (_rust_source_path self)). }
  split; [exact Hrun |].
  intros Hconn. rewrite Hrun.
  by rewrite (connection_error_is_not_http_error _ Hconn).
Qed.

End Requests.

(** C2, as the claim has it, fails: the server is unreachable, no source
    path is configured, and the caller gets the connection error itself. *)
Example unreachable_backend_error_is_not_translated :
  _rust_source_path (fst Fixture.unreachable) = None
  ∧ fst (fst (ComputeCandidatesInner (ext := Fixture.externals)
                (Some Fixture.request)
                (fst Fixture.unreachable) (snd Fixture.unreachable)))
    = Raise (mkExn ConnectionError "Connection refused").
Proof. split; vm_compute; reflexivity. Qed.

Lemma error_status_without_source_path :
  ComputeCandidatesInner (ext := Fixture.externals) (Some Fixture.request)
    (fst Fixture.unreachable) (Fixture.answering (NetResponse 500 None))
  = (Raise (mkExn RuntimeError ERROR_FROM_RACERD_MESSAGE),
     fst Fixture.unreachable,
     emit (EvRequest
             (request_of (ext := Fixture.externals) "/list_completions"
                (Some Fixture.request) "POST" (fst Fixture.unreachable)))
       (Fixture.answering (NetResponse 500 None))).
Proof.
  exact (proj1
    (ComputeCandidatesInner_error_translation (ext := Fixture.externals)
       (Some Fixture.request) (fst Fixture.unreachable)
       (Fixture.answering (NetResponse 500 None))
       (mkExn HTTPError "500") _ _ eq_refl)).
Defined.

(** ** C3: [DebugInfo] *)

Lemma ServerIsRunning_run self w :
  ServerIsRunning self w
  = (Return (truthy_str (_racerd_host self)
             && ProcessIsRunning (_racerd_phandle self) w), self, w).
Proof. reflexivity. Qed.

Lemma DebugInfo_run self w :
  DebugInfo self w
  = (if truthy_str (_racerd_host self)
        && ProcessIsRunning (_racerd_phandle self) w
     then Return ("racerd" +:+ nl +:+
                  "  listening at: " +:+ str_opt (_racerd_host self) +:+ nl +:+
                  "  racerd path: " +:+ _racerd self +:+ nl +:+
                  "  stdout log: " +:+ str_opt (_server_stdout self) +:+ nl +:+
                  "  stderr log: " +:+ str_opt (_server_stderr self))
     else if truthy_str (_server_stdout self)
             && truthy_str (_server_stderr self)
     then Raise (mkExn AttributeError
                   "'tuple' object has no attribute 'format'")
     else Return "racerd is not running", self, w).
Proof.
  unfold DebugInfo, ServerIsRunning. run.
  destruct (truthy_str (_racerd_host self) && _); [done |].
  by destruct (truthy_str (_server_stdout self) && _).
Qed.

(** Whenever the server is not running and both log paths are recorded,
    [DebugInfo] calls [format] on a tuple. *)
Lemma DebugInfo_not_running_with_logs self w :
  fst (fst (ServerIsRunning self w)) = Return false →
  truthy_str (_server_stdout self) = true →
  truthy_str (_server_stderr self) = true →
  DebugInfo self w
  = (Raise (mkExn AttributeError "'tuple' object has no attribute 'format'"),
     self, w).
Proof.
  rewrite ServerIsRunning_run, DebugInfo_run. cbn [fst].
  intros [= ->] -> ->. done.
Qed.

(** C3 at a completer that keeps its log files and has been stopped: the
    server is not running, both log paths are still recorded, and
    [DebugInfo] raises [AttributeError] where the claim has it return the
    message with the log paths. *)
Theorem DebugInfo_after_stop_with_logs_kept :
  ServerIsRunning (fst Fixture.stopped_keeping_logs)
    (snd Fixture.stopped_keeping_logs)
  = (Return false, fst Fixture.stopped_keeping_logs,
     snd Fixture.stopped_keeping_logs)
  ∧ _server_stdout (fst Fixture.stopped_keeping_logs)
    = Some "/tmp/ycm_temp/racerd_4242_stdout.log"
  ∧ _server_stderr (fst Fixture.stopped_keeping_logs)
    = Some "/tmp/ycm_temp/racerd_4242_stderr.log"
  ∧ DebugInfo (fst Fixture.stopped_keeping_logs)
      (snd Fixture.stopped_keeping_logs)
    = (Raise (mkExn AttributeError
                "'tuple' object has no attribute 'format'"),
       fst Fixture.stopped_keeping_logs, snd Fixture.stopped_keeping_logs).
Proof. split_and!; vm_compute; reflexivity. Qed.

(** ** C4 and C5: the readiness probe, and an answer without content *)

Section Probe.

Context {ext : Externals}.

(** C4: [ServerIsReady] answers [False] without a request when the server
    is not running; when it is, a probe that raises an exception of the
    [ConnectionError] class gives [False], a probe that raises anything
    else raises it to the caller, and a probe that returns gives [True]. *)
Theorem ServerIsReady_cases self w :
  (fst (fst (ServerIsRunning self w)) = Return false →
   ServerIsReady self w = (Return false, self, w))
  ∧ (fst (fst (ServerIsRunning self w)) = Return true →
     (∀ e, network w (events w) (request_of "/ping" None "GET" self)
           = NetRaise e →
           issubclass (exn_class e) ConnectionError = true →
           ServerIsReady self w
           = (Return false, self,
              emit (EvRequest (request_of "/ping" None "GET" self)) w))
     ∧ (∀ e self' w',
           _GetResponse "/ping" None "GET" self w = (Raise e, self', w') →
           ServerIsReady self w
           = (if issubclass (exn_class e) ConnectionError
              then Return false else Raise e, self', w'))
     ∧ (∀ j self' w',
           _GetResponse "/ping" None "GET" self w = (Return j, self', w') →
           ServerIsReady self w = (Return true, self', w'))).
Proof.
  unfold ServerIsReady. run. rewrite ServerIsRunning_run. cbn [fst].
  split; [by intros [= ->] |].
  intros [= ->]. cbn [negb]. split_and!.
  - intros e Hnet Hconn. rewrite GetResponse_requests. cbn zeta.
    rewrite Hnet. by rewrite Hconn.
  - intros e self' w' ->. by destruct (issubclass _ _).
  - by intros j self' w' ->.
Qed.

(** C5: a 204 answer to [/list_completions] makes [_GetResponse] return
    [None], which is not the empty object, and [ComputeCandidatesInner]
    return the empty list; so does every falsy completion set. *)
Theorem no_content_gives_no_candidates rd self w body :
  network w (events w) (request_of "/list_completions" rd "POST" self)
  = NetResponse no_content body →
  _GetResponse "/list_completions" rd "POST" self w
  = (Return JNull, self,
     emit (EvRequest (request_of "/list_completions" rd "POST" self)) w)
  ∧ JNull ≠ JObj []
  ∧ ComputeCandidatesInner rd self w
    = (Return [], self,
       emit (EvRequest (request_of "/list_completions" rd "POST" self)) w)
  ∧ (∀ completions self' w',
       _FetchCompletions rd self w = (Return completions, self', w') →
       truthy completions = false →
       ComputeCandidatesInner rd self w = (Return [], self', w')).
Proof.
  intros Hnet.
  assert (_GetResponse "/list_completions" rd "POST" self w
          = (Return JNull, self,
             emit (EvRequest
                     (request_of "/list_completions" rd "POST" self)) w))
    as Hget.
  { rewrite GetResponse_requests. cbn zeta. by rewrite Hnet. }
  split_and!; [exact Hget | done | |].
  - unfold ComputeCandidatesInner, _FetchCompletions. run. by rewrite Hget.
  - intros completions self' w' Hfetch Hfalsy.
    unfold ComputeCandidatesInner. run. by rewrite Hfetch, Hfalsy.
Qed.

End Probe.

Lemma refused_probe_is_not_ready :
  ServerIsReady (ext := Fixture.externals)
    (fst Fixture.unreachable) (snd Fixture.unreachable)
  = (Return false, fst Fixture.unreachable,
     emit (EvRequest (request_of (ext := Fixture.externals) "/ping" None
                        "GET" (fst Fixture.unreachable)))
       (snd Fixture.unreachable)).
Proof.
  exact (proj1
    (proj2 (ServerIsReady_cases (ext := Fixture.externals)
              (fst Fixture.unreachable) (snd Fixture.unreachable))
       eq_refl)
    Fixture.refused eq_refl eq_refl).
Defined.

Lemma no_content_answer_gives_no_candidates :
  ComputeCandidatesInner (ext := Fixture.externals) (Some Fixture.request)
    (fst Fixture.unreachable) (Fixture.answering (NetResponse 204 None))
  = (Return [], fst Fixture.unreachable,
     emit (EvRequest
             (request_of (ext := Fixture.externals) "/list_completions"
                (Some Fixture.request) "POST" (fst Fixture.unreachable)))
       (Fixture.answering (NetResponse 204 None))).
Proof.
  exact (proj1 (proj2 (proj2
    (no_content_gives_no_candidates (ext := Fixture.externals)
       (Some Fixture.request) (fst Fixture.unreachable)
       (Fixture.answering (NetResponse 204 None)) None eq_refl)))).
Defined.

(** ** Starting and stopping *)

Ltac start_step :=
  cbv beta delta
    [bind ret raise attr assign ask act lift when try_except library
     write_file OpenForStdHandle SafePopen ServerIsRunning
     _CreateHmacSecret];
  cbn beta iota zeta;
  cbn [_hmac_secret set_hmac_secret _racerd _rust_source_path
       set_server_stdout set_server_stderr set_racerd_phandle set_racerd_host
       _server_stderr _server_stdout _racerd_host _racerd_phandle
       _keep_logfiles str_opt emit alive files environ events network
       ProcessIsRunning truthy_str fst snd].

(** Every way through [_StartServer], in the order of its library calls:
    [exit] closes the goals of the ways out before the liveness check,
    the last goal is the way through to it. *)
Ltac start_paths os exit :=
  unfold _StartServer; start_step;
  destruct (env_raises os LibGetUnusedLocalhostPort); start_step; [exit |];
  destruct (env_raises os LibUrandom); start_step; [exit |];
  destruct (env_raises os LibNamedTemporaryFile); start_step; [exit |];
  destruct (env_raises os LibWrite); start_step; [exit |];
  destruct (env_raises os LibPathToCreatedTempDir); start_step; [exit |];
  destruct (format_log (env_tmpdir os) (env_port os) "stdout") as [out |];
    start_step; [| exit];
  destruct (format_log (env_tmpdir os) (env_port os) "stderr") as [err |];
    start_step; [| exit];
  destruct (env_raises os LibOpenStderr); start_step; [exit |];
  destruct (env_raises os LibOpenStdout); start_step; [exit |];
  destruct (env_raises os LibSafePopen); start_step; [exit |].

(** What holds at every way out of [_StartServer]. *)
Ltac start_exit :=
  split_and!;
    [ done | done | done | by intros | done
    | first
        [ by exists []; rewrite app_nil_r
        | eexists; split;
            [ rewrite <- ?app_assoc; reflexivity | by repeat constructor ] ] ].

Section Starting.

Context {ext : Externals}.

Lemma format_log_plain dir port std :
  has_brace dir = false →
  format_log dir port std = Return (p_join dir (log_name port std)).
Proof. unfold format_log. by intros ->. Qed.

(** A start that nothing hinders, in one equation. *)
Lemma StartServer_run os self w :
  unhindered os →
  _StartServer os self w
  = (if env_spawn_alive os then Return tt
     else Raise (mkExn RuntimeError "Failed to start racerd!"),
     started_completer os self, started_world os self w).
Proof.
  intros [Hcalls Hdir].
  unfold _StartServer, _CreateHmacSecret, library. rewrite !Hcalls.
  start_step. rewrite !(format_log_plain _ _ _ Hdir). start_step.
  unfold started_world, started_completer, start_events, spawn_args.
  rewrite <- !app_assoc. cbn [app].
  replace (String.eqb ("http://127.0.0.1:" +:+ pretty (env_port os)) "")
    with false by reflexivity.
  cbn [negb andb].
  fold (session_secret os) (stdout_log os) (stderr_log os) (session_host os).
  destruct (env_spawn_alive os);
    [rewrite bool_decide_eq_true_2
       by (apply elem_of_union_r, elem_of_singleton; reflexivity)
    |rewrite bool_decide_eq_false_2
       by (rewrite elem_of_difference, elem_of_singleton; by intros [_ []])];
    destruct (truthy_str (_rust_source_path self));
    cbn [negb];
    unfold set_racerd_host, set_racerd_phandle, set_server_stderr,
      set_server_stdout, set_hmac_secret, emit;
    cbn [_hmac_secret _racerd _rust_source_path _server_stderr _server_stdout
         _racerd_host _racerd_phandle _keep_logfiles alive files environ
         events network];
    rewrite <- ?app_assoc; reflexivity.
Qed.

(** Whatever way a start takes, it keeps what was configured, stops no
    process, leaves the caller's environment alone, and terminates, waits
    for and unlinks nothing. *)
Lemma StartServer_effects os self w :
  _racerd (snd (fst (_StartServer os self w))) = _racerd self
  ∧ _keep_logfiles (snd (fst (_StartServer os self w))) = _keep_logfiles self
  ∧ _rust_source_path (snd (fst (_StartServer os self w)))
    = _rust_source_path self
  ∧ (∀ pid, pid ≠ env_pid os →
            pid ∈ alive (snd (_StartServer os self w)) ↔ pid ∈ alive w)
  ∧ environ (snd (_StartServer os self w)) = environ w
  ∧ ∃ new,
      events (snd (_StartServer os self w)) = (events w ++ new)%list
      ∧ Forall (λ ev, match ev with
                      | EvTerminate _ | EvWait _ | EvUnlink _ => False
                      | _ => True
                      end) new.
Proof.
  start_paths os ltac:(start_exit).
  match goal with
  | |- context [negb ?b] => destruct (negb b)
  end;
    unfold set_racerd_host, set_racerd_phandle, set_server_stderr,
      set_server_stdout, set_hmac_secret, emit;
    cbn [fst snd _racerd _keep_logfiles _rust_source_path alive environ
         events];
    (split_and!; [done | done | done | | done |]).
  all: try (intros pid Hpid; destruct (env_spawn_alive os);
            [ rewrite elem_of_union, elem_of_singleton;
              split; [by intros [? | ?] | by left]
            | rewrite elem_of_difference, elem_of_singleton;
              split; [by intros [? _] | done] ]).
  all: eexists; split;
         [ rewrite <- ?app_assoc; reflexivity | by repeat constructor ].
Qed.

(** A start that returns has taken every step: both log paths formatted,
    the process spawned and found running. *)
Lemma StartServer_returned os self w :
  fst (fst (_StartServer os self w)) = Return tt →
  ∃ out err,
    format_log (env_tmpdir os) (env_port os) "stdout" = Return out
    ∧ format_log (env_tmpdir os) (env_port os) "stderr" = Return err
    ∧ env_spawn_alive os = true
    ∧ snd (fst (_StartServer os self w))
      = mkCompleter (_racerd self) (Some (session_host os))
          (_keep_logfiles self) (session_secret os) (_rust_source_path self)
          (Some (env_pid os)) (Some out) (Some err)
    ∧ snd (_StartServer os self w)
      = mkWorld (alive w ∪ {[env_pid os]})
          (<[out := []]>
             (<[err := []]>
                (<[env_secret_file os := session_secret os]> (files w))))
          (environ w)
          (events w
           ++ [ EvWriteFile (env_secret_file os) (session_secret os);
                EvOpenLog err;
                EvOpenLog out;
                EvSpawn (spawn_args os self)
                  (<["RUST_BACKTRACE" := "1"]> (environ w)) (env_pid os) ])
          (network w).
Proof.
  start_paths os ltac:(by intros [=]).
  replace (String.eqb ("http://127.0.0.1:" +:+ pretty (env_port os)) "")
    with false by reflexivity.
  cbn [negb andb].
  destruct (env_spawn_alive os);
    [rewrite bool_decide_eq_true_2
       by (apply elem_of_union_r, elem_of_singleton; reflexivity)
    |rewrite bool_decide_eq_false_2
       by (rewrite elem_of_difference, elem_of_singleton; by intros [_ []])];
    cbn [negb fst snd]; [intros _ | by intros [=]].
  exists out, err. split_and!; try done.
  unfold emit, spawn_args. cbn [alive files environ events network].
  rewrite <- !app_assoc. cbn [app].
  by destruct (truthy_str (_rust_source_path self)).
Qed.

End Starting.

Ltac stop_split :=
  unfold _StopServer, terminate, wait, os_unlink, p_exists;
  run;
  cbn -[dom bool_decide delete difference String.eqb app];
  repeat (match goal with
          | |- context [if ?b then _ else _] => destruct b eqn:?
          end;
          cbn -[dom bool_decide delete difference String.eqb app]).

Ltac stop_cases self w :=
  destruct self as [racerd host keep secret src [pid|] [out|] [err|]];
  destruct keep;
  stop_split.

(** [_StopServer] returns, leaves no process handle, and keeps what was
    configured and the secret. *)
Lemma StopServer_fields self w :
  fst (fst (_StopServer self w)) = Return tt
  ∧ _racerd_phandle (snd (fst (_StopServer self w))) = None
  ∧ _racerd (snd (fst (_StopServer self w))) = _racerd self
  ∧ _keep_logfiles (snd (fst (_StopServer self w))) = _keep_logfiles self
  ∧ _hmac_secret (snd (fst (_StopServer self w))) = _hmac_secret self
  ∧ _rust_source_path (snd (fst (_StopServer self w)))
    = _rust_source_path self.
Proof. stop_cases self w; done. Qed.

(** What [_StopServer] does to the world: the process it held is gone, and
    only terminations and removals are recorded. *)
Lemma StopServer_events self w :
  ∃ new,
    events (snd (_StopServer self w)) = (events w ++ new)%list
    ∧ Forall (λ ev, match ev with
                    | EvTerminate _ | EvWait _ | EvUnlink _ => True
                    | _ => False
                    end) new.
Proof.
  stop_cases self w; rewrite <- ?app_assoc;
    try (eexists; split; [reflexivity | by repeat constructor]).
  all: by (exists []; rewrite app_nil_r).
Qed.








(** ** C8: stopping removes the logs it finds *)




(** ** C7: restarting *)

Lemma started_process_state os self w :
  ProcessIsRunning (Some (env_pid os)) (started_world os self w)
  = env_spawn_alive os.
Proof.
  unfold started_world. cbn [ProcessIsRunning alive].
  destruct (env_spawn_alive os).
  - apply bool_decide_eq_true_2, elem_of_union_r, elem_of_singleton.
    reflexivity.
  - apply bool_decide_eq_false_2. rewrite elem_of_difference, elem_of_singleton.
    by intros [_ []].
Qed.


Lemma unhindered_fixture (alive : bool) : unhindered (Fixture.os alive).
Proof. split; [by intros c | done]. Qed.


Lemma fixture_joins_loopback : joins_loopback (ext := Fixture.externals).
Proof. intros port handler _. reflexivity. Qed.

Section Restarting.

Context {ext : Externals}.


End Restarting.



(** ** C6: what a start establishes *)

Section Start.

Context {ext : Externals}.

(** C6, as the code has it: every start that returns has spawned the
    process and found it running, and returns with [ServerIsRunning()]
    true and [DebugInfo()] showing the address [http://127.0.0.1:<port>],
    which is the base the URL of every later request is joined from; and
    when nothing hinders the start (every library call returns and the
    temp dir holds no brace), [_StartServer] spawns the process and raises
    [RuntimeError('Failed to start racerd!')] exactly when that process is
    not running. *)
Theorem StartServer_outcome os self w handler rd method :
  let st := _StartServer os self w in
  let self' := snd (fst st) in
  let w' := snd st in
  let address := "http://127.0.0.1:" +:+ pretty (env_port os) in
  (fst (fst st) = Return tt →
   env_spawn_alive os = true
   ∧ (∃ before args env,
        events w'
        = (events w ++ before ++ [EvSpawn args env (env_pid os)])%list)
   ∧ ServerIsRunning self' w' = (Return true, self', w')
   ∧ _racerd_host self' = Some address
   ∧ (∃ out err,
        DebugInfo self' w'
        = (Return ("racerd" +:+ nl +:+
                   "  listening at: " +:+ address +:+ nl +:+
                   "  racerd path: " +:+ _racerd self +:+ nl +:+
                   "  stdout log: " +:+ out +:+ nl +:+
                   "  stderr log: " +:+ err), self', w'))
   ∧ ∃ req,
       events (snd (_GetResponse handler rd method self' w'))
       = (events w' ++ [EvRequest req])%list
       ∧ req_url req
         = urljoin (ToBytes (Some address)) (ToBytes (Some handler))
       ∧ (joins_loopback →
          handler = "/ping" ∨ handler = "/list_completions"
          ∨ handler = "/find_definition" →
          req_url req
          = (ToBytes (Some address) ++ ToBytes (Some handler))%list))
  ∧ (unhindered os →
     fst (fst st)
     = (if env_spawn_alive os then Return tt
        else Raise (mkExn RuntimeError "Failed to start racerd!"))
     ∧ (∃ before args env,
          events w'
          = (events w ++ before ++ [EvSpawn args env (env_pid os)])%list)
     ∧ _racerd_phandle self' = Some (env_pid os)
     ∧ ProcessIsRunning (Some (env_pid os)) w' = env_spawn_alive os
     ∧ ServerIsRunning self' w' = (Return (env_spawn_alive os), self', w')
     ∧ _racerd_host self' = Some address
     ∧ (env_spawn_alive os = true →
        DebugInfo self' w'
        = (Return ("racerd" +:+ nl +:+
                   "  listening at: " +:+ address +:+ nl +:+
                   "  racerd path: " +:+ _racerd self +:+ nl +:+
                   "  stdout log: " +:+ stdout_log os +:+ nl +:+
                   "  stderr log: " +:+ stderr_log os), self', w'))).
Proof.
  cbn zeta. split.
  - intros Hret.
    destruct (StartServer_returned _ _ _ Hret)
      as (out & err & _ & _ & Halive & -> & ->).
    rewrite ServerIsRunning_run, DebugInfo_run.
    cbn [_racerd_host _racerd_phandle _racerd _server_stdout _server_stderr
         str_opt ProcessIsRunning alive events].
    replace (truthy_str (Some (session_host os))) with true by reflexivity.
    rewrite bool_decide_eq_true_2
      by (apply elem_of_union_r, elem_of_singleton; reflexivity).
    cbn [andb]. split_and!; try done.
    + exists [ EvWriteFile (env_secret_file os) (session_secret os);
               EvOpenLog err; EvOpenLog out ].
      by eexists _, _.
    + by exists out, err.
    + eexists. split; [apply GetResponse_events |].
      unfold request_of. cbn [req_url _racerd_host]. split; [done |].
      intros Hjoin Hhandler. by apply Hjoin.
  - intros Hos. rewrite (StartServer_run _ _ _ Hos). cbn [fst snd].
    rewrite ServerIsRunning_run, DebugInfo_run.
    cbn [started_completer _racerd_host _racerd_phandle _racerd
         _server_stdout _server_stderr str_opt].
    rewrite started_process_state.
    replace (truthy_str (Some (session_host os))) with true by reflexivity.
    cbn [andb]. split_and!; try done.
    + exists [ EvWriteFile (env_secret_file os) (session_secret os);
               EvOpenLog (stderr_log os); EvOpenLog (stdout_log os) ].
      by eexists _, _.
    + by intros ->.
Qed.

End Start.

(** C6, as the claim has it, fails: with the temp dir [/tmp/ycm_{0}] the
    start leaves by the [IndexError] of formatting the stdout log path,
    after the secret is written and before anything is spawned. *)
Example start_leaves_by_IndexError_before_any_spawn :
  fst (fst (_StartServer (ext := Fixture.externals) Fixture.os_braces
              Fixture.blank Fixture.offline))
  = Raise (mkExn IndexError "tuple index out of range")
  ∧ events (snd (_StartServer (ext := Fixture.externals) Fixture.os_braces
                   Fixture.blank Fixture.offline))
    = [EvWriteFile "/tmp/tmpk3y9" (session_secret Fixture.os_braces)]
  ∧ _racerd_phandle
      (snd (fst (_StartServer (ext := Fixture.externals) Fixture.os_braces
                   Fixture.blank Fixture.offline)))
    = None.
Proof. split_and!; vm_compute; reflexivity. Qed.

Lemma start_of_a_live_process_returns :
  fst (fst (_StartServer (ext := Fixture.externals) (Fixture.os true)
              Fixture.blank Fixture.offline))
  = Return tt
  ∧ ServerIsRunning
      (snd (fst (_StartServer (ext := Fixture.externals) (Fixture.os true)
                   Fixture.blank Fixture.offline)))
      (snd (_StartServer (ext := Fixture.externals) (Fixture.os true)
              Fixture.blank Fixture.offline))
    = (Return true,
       snd (fst (_StartServer (ext := Fixture.externals) (Fixture.os true)
                   Fixture.blank Fixture.offline)),
       snd (_StartServer (ext := Fixture.externals) (Fixture.os true)
              Fixture.blank Fixture.offline))
  ∧ _racerd_host
      (snd (fst (_StartServer (ext := Fixture.externals) (Fixture.os true)
                   Fixture.blank Fixture.offline)))
    = Some ("http://127.0.0.1:" +:+ pretty (env_port (Fixture.os true))).
Proof.
  destruct (StartServer_outcome (ext := Fixture.externals) (Fixture.os true)
              Fixture.blank Fixture.offline "/ping" None "GET")
    as (Hreturned & Hplain).
  destruct (Hplain (unhindered_fixture true)) as (Hret & _).
  destruct (Hreturned Hret) as (_ & _ & Hrunning & Hhost & _).
  exact (conj Hret (conj Hrunning Hhost)).
Defined.

(** ** C9: the code a request carries *)

Section Signing.

Context {ext : Externals}.

Lemma ExtraHeaders_run method handler body self w :
  _ExtraHeaders method handler body self w
  = (Return (<[RACERD_HMAC_HEADER :=
                 hexlify (CreateRequestHmac method handler body
                            (_hmac_secret self))]>
               {[ "content-type" := "application/json" ]}), self, w).
Proof. unfold _ExtraHeaders. run. by rewrite falsy_body. Qed.

(** C9: the request [_GetResponse] makes carries, under [x-racerd-hmac],
    the hex digits of [CreateRequestHmac] applied to the method, the
    handler path and the body of that very request, keyed with the
    completer's secret; the URL sent is [urljoin] of the address and that
    handler, which for the three handler paths the completer passes
    ([/ping], [/list_completions], [/find_definition]) on a loopback
    address is the address followed by the signed path, [urljoin] being
    taken to append an absolute path to such a base; without request data
    the body sent and signed is empty; and the header depends on method,
    path, body and secret alone: not on the other attributes, not on the
    world, and a second call after the first answer carries the same
    value. *)
Theorem request_is_signed_as_sent handler rd method self w :
  ∃ req,
    events (snd (_GetResponse handler rd method self w))
    = (events w ++ [EvRequest req])%list
    ∧ req_method req = ToBytes (Some method)
    ∧ req_url req
      = urljoin (ToBytes (_racerd_host self)) (ToBytes (Some handler))
    ∧ req_data req
      = match _ConvertToRacerdRequest rd with
        | Some parameters => ToBytes (Some (json_dumps parameters))
        | None => []
        end
    ∧ (rd = None → req_data req = [])
    ∧ req_headers req !! RACERD_HMAC_HEADER
      = Some (hexlify (CreateRequestHmac (req_method req)
                         (ToBytes (Some handler)) (req_data req)
                         (_hmac_secret self)))
    ∧ (∀ m h b,
         ∃ headers,
           _ExtraHeaders m h b self w = (Return headers, self, w)
           ∧ headers !! RACERD_HMAC_HEADER
             = Some (hexlify (CreateRequestHmac m h b (_hmac_secret self))))
    ∧ (∀ self2 w2,
         _hmac_secret self2 = _hmac_secret self →
         ∃ req2,
           events (snd (_GetResponse handler rd method self2 w2))
           = (events w2 ++ [EvRequest req2])%list
           ∧ req_headers req2 !! RACERD_HMAC_HEADER
             = req_headers req !! RACERD_HMAC_HEADER)
    ∧ (joins_loopback →
       ∀ port : N,
         _racerd_host self = Some ("http://127.0.0.1:" +:+ pretty port) →
         handler = "/ping" ∨ handler = "/list_completions"
         ∨ handler = "/find_definition" →
         req_url req
         = (ToBytes (_racerd_host self) ++ ToBytes (Some handler))%list)
    ∧ (∀ m h b self2 w2,
         _hmac_secret self2 = _hmac_secret self →
         fst (fst (_ExtraHeaders m h b self2 w2))
         = fst (fst (_ExtraHeaders m h b self w)))
    ∧ (let first := _GetResponse handler rd method self w in
       ∃ req2,
         events (snd (_GetResponse handler rd method (snd (fst first))
                        (snd first)))
         = (events (snd first) ++ [EvRequest req2])%list
         ∧ req_headers req2 !! RACERD_HMAC_HEADER
           = req_headers req !! RACERD_HMAC_HEADER).
Proof.
  exists (request_of handler rd method self).
  split; [apply GetResponse_events |].
  unfold request_of. cbn [req_method req_url req_data req_headers].
  split_and!; try done.
  - by intros ->.
  - intros m h b. eexists. split; [apply ExtraHeaders_run |].
    by rewrite lookup_insert_eq.
  - intros self2 w2 Hsecret. eexists. split; [apply GetResponse_events |].
    unfold request_of. cbn [req_headers].
    by rewrite !lookup_insert_eq, Hsecret.
  - intros Hjoin port Hhost Hhandler. rewrite Hhost. by apply Hjoin.
  - intros m h b self2 w2 Hsecret. rewrite !ExtraHeaders_run. cbn [fst].
    by rewrite Hsecret.
  - cbn zeta. eexists. split; [apply GetResponse_events |].
    rewrite GetResponse_self. unfold request_of. cbn [req_headers].
    by rewrite !lookup_insert_eq.
Qed.

End Signing.

Lemma ping_is_signed_with_empty_body :
  ∃ req,
    events (snd (_GetResponse (ext := Fixture.externals) "/ping" None "GET"
                   (fst Fixture.unreachable) (snd Fixture.unreachable)))
    = (events (snd Fixture.unreachable) ++ [EvRequest req])%list
    ∧ req_data req = []
    ∧ req_headers req !! RACERD_HMAC_HEADER
      = Some (hexlify
                (CreateRequestHmac (Externals := Fixture.externals)
                   (ToBytes (Some "GET")) (ToBytes (Some "/ping")) []
                   (_hmac_secret (fst Fixture.unreachable))))
    ∧ req_url req
      = (ToBytes (_racerd_host (fst Fixture.unreachable))
         ++ ToBytes (Some "/ping"))%list
    ∧ ∃ req2,
        events (snd (_GetResponse (ext := Fixture.externals) "/ping" None
                       "GET" (fst Fixture.stopped_keeping_logs)
                       (snd Fixture.stopped_keeping_logs)))
        = (events (snd Fixture.stopped_keeping_logs) ++ [EvRequest req2])%list
        ∧ req_headers req2 !! RACERD_HMAC_HEADER
          = req_headers req !! RACERD_HMAC_HEADER.
Proof.
  destruct (request_is_signed_as_sent (ext := Fixture.externals) "/ping" None
              "GET" (fst Fixture.unreachable) (snd Fixture.unreachable))
    as (req & Hev & Hmethod & _ & _ & Hempty & Hmac & _ & Hsame & Hurl & _).
  exists req. split; [exact Hev |].
  split; [exact (Hempty eq_refl) |].
  split; [by rewrite Hmac, Hmethod, (Hempty eq_refl) |].
  split; [exact (Hurl fixture_joins_loopback 4242%N eq_refl
                   (or_introl eq_refl)) |].
  exact (Hsame (fst Fixture.stopped_keeping_logs)
           (snd Fixture.stopped_keeping_logs) eq_refl).
Defined.

(** ** C10: one secret per session *)

Lemma b64encode_length_below (n : nat) (bs : list byte) :
  (length bs < n)%nat →
  length (b64encode bs) = (4 * ((length bs + 2) / 3))%nat.
Proof.
  revert bs. induction n as [| n IH]; intros bs Hlen; [lia |].
  destruct bs as [| a [| b [| c rest]]]; try reflexivity.
  cbn [b64encode length] in *. rewrite IH by lia.
  replace (S (S (S (length rest))) + 2)%nat
    with ((length rest + 2) + 1 * 3)%nat by lia.
  rewrite Nat.div_add by lia. lia.
Qed.

Lemma b64encode_length (bs : list byte) :
  length (b64encode bs) = (4 * ((length bs + 2) / 3))%nat.
Proof. apply (b64encode_length_below (S (length bs))). lia. Qed.

Lemma urandom_length (entropy : nat → byte) (n : nat) :
  length (urandom entropy n) = n.
Proof. unfold urandom. by rewrite length_map, length_seq. Qed.

Lemma quiet_ret {A} (a : A) : quiet (ret a).
Proof. done. Qed.

Lemma quiet_raise {A} (e : Exn) : quiet (raise (A := A) e).
Proof. done. Qed.

Lemma quiet_lift {A} (o : Outcome A) : quiet (lift o).
Proof. done. Qed.

Lemma quiet_attr {A} (f : RustCompleter → A) : quiet (attr f).
Proof. done. Qed.

Lemma quiet_ask {A} (f : World → A) : quiet (ask f).
Proof. done. Qed.

Lemma quiet_bind {A B} (m : M A) (k : A → M B) :
  quiet m → (∀ a, quiet (k a)) → quiet (bind m k).
Proof.
  intros Hm Hk self w. specialize (Hm self w). unfold bind, after in *.
  destruct (m self w) as [[[a | e] self'] w']; cbn in Hm; simplify_eq.
  - apply Hk.
  - done.
Qed.

Lemma after_bind_quiet {A B} (m : M A) (k : A → M B) self w :
  (∀ a, quiet (k a)) → after (bind m k self w) = after (m self w).
Proof.
  intros Hk. unfold bind.
  destruct (m self w) as [[[a | e] self'] w']; [apply Hk | done].
Qed.

Lemma after_try_quiet {A} (m : M A) cls (handler : Exn → M A) self w :
  (∀ e, quiet (handler e)) →
  after (try_except m cls handler self w) = after (m self w).
Proof.
  intros Hh. unfold try_except.
  destruct (m self w) as [[[a | e] self'] w']; [done |].
  destruct (issubclass _ _); [apply Hh | done].
Qed.

Lemma quiet_comprehension {A B} (f : A → M B) (xs : list A) :
  (∀ x, quiet (f x)) → quiet (comprehension f xs).
Proof.
  intros Hf. induction xs as [| x rest IH]; [apply quiet_ret |].
  cbn [comprehension]. apply quiet_bind; [apply Hf |].
  intros y. apply quiet_bind; [apply IH |]. intros ys. apply quiet_ret.
Qed.

Ltac quiet_steps :=
  repeat first
    [ apply quiet_ret | apply quiet_raise | apply quiet_lift
    | apply quiet_attr | apply quiet_ask
    | apply quiet_bind; [| intros ?]
    | match goal with
      | |- quiet (if ?b then _ else _) => destruct b
      end ].

Lemma quiet_GetExtraData completion : quiet (_GetExtraData completion).
Proof. unfold _GetExtraData. cbn zeta. quiet_steps. Qed.

Lemma quiet_ServerIsRunning : quiet ServerIsRunning.
Proof. unfold ServerIsRunning. quiet_steps. Qed.

Lemma quiet_DebugInfo : quiet DebugInfo.
Proof. intros self w. by rewrite DebugInfo_run. Qed.

Section Session.

Context {ext : Externals}.

Lemma GetResponse_after handler rd method self w :
  after (_GetResponse handler rd method self w)
  = (self, emit (EvRequest (request_of handler rd method self)) w).
Proof.
  rewrite GetResponse_requests. cbn zeta.
  destruct (network w _ _) as [e | status body]; [done |].
  destruct ((400 <=? status) && (status <? 600)); [done |].
  destruct (status =? no_content); [done |].
  by destruct body.
Qed.

Lemma ComputeCandidatesInner_after rd self w :
  after (ComputeCandidatesInner rd self w)
  = after (_GetResponse "/list_completions" rd "POST" self w).
Proof.
  unfold ComputeCandidatesInner, _FetchCompletions.
  rewrite after_bind_quiet.
  - apply after_try_quiet. intros e. quiet_steps.
  - intros completions. quiet_steps.
    apply quiet_comprehension. intros completion. quiet_steps.
Qed.

Lemma GoToDefinition_after rd self w :
  after (_GoToDefinition rd self w)
  = after (_GetResponse "/find_definition" rd "POST" self w).
Proof.
  unfold _GoToDefinition.
  rewrite after_try_quiet by (intros e; quiet_steps).
  apply after_bind_quiet. intros definition. quiet_steps.
Qed.

Lemma ServerIsReady_after self w :
  after (ServerIsReady self w) = (self, w)
  ∨ after (ServerIsReady self w)
    = after (_GetResponse "/ping" None "GET" self w).
Proof.
  unfold ServerIsReady. run. rewrite ServerIsRunning_run.
  destruct (truthy_str (_racerd_host self) && _); cbn [negb];
    [right | by left].
  destruct (_GetResponse "/ping" None "GET" self w) as [[[j | e] self'] w'];
    [done |].
  by destruct (issubclass _ _).
Qed.

Lemma request_of_signed handler rd method self :
  signed_under (_hmac_secret self) (request_of handler rd method self).
Proof.
  exists (ToBytes (Some handler)). unfold request_of.
  cbn [req_headers req_method req_data]. by rewrite lookup_insert_eq.
Qed.

(** No entry point of a session touches the secret, and what a session
    does to the world is a list of session events. *)
Lemma perform_keeps_secret c self w :
  _hmac_secret (fst (perform c (self, w))) = _hmac_secret self
  ∧ ∃ new,
      events (snd (perform c (self, w))) = (events w ++ new)%list
      ∧ Forall (session_event (_hmac_secret self)) new.
Proof.
  assert (∀ handler rd method,
            _hmac_secret (fst (after (_GetResponse handler rd method self w)))
            = _hmac_secret self
            ∧ ∃ new,
                events (snd (after (_GetResponse handler rd method self w)))
                = (events w ++ new)%list
                ∧ Forall (session_event (_hmac_secret self)) new) as Hreq.
  { intros handler rd method. rewrite GetResponse_after. split; [done |].
    eexists. split; [reflexivity |].
    repeat constructor. apply request_of_signed. }
  assert (_hmac_secret (fst (self, w)) = _hmac_secret self
          ∧ ∃ new,
              events (snd (self, w)) = (events w ++ new)%list
              ∧ Forall (session_event (_hmac_secret self)) new) as Hidle.
  { split; [done |]. exists []. by rewrite app_nil_r. }
  assert (_hmac_secret (fst (after (_StopServer self w))) = _hmac_secret self
          ∧ ∃ new,
              events (snd (after (_StopServer self w))) = (events w ++ new)%list
              ∧ Forall (session_event (_hmac_secret self)) new) as Hstop.
  { split; [apply StopServer_fields |].
    destruct (StopServer_events self w) as (new & Hev & Hnew).
    exists new. split; [exact Hev |].
    eapply Forall_impl; [exact Hnew |]. by intros []. }
  destruct c; cbn [perform].
  - rewrite ComputeCandidatesInner_after. apply Hreq.
  - rewrite GoToDefinition_after. apply Hreq.
  - apply Hreq.
  - exact Hstop.
  - exact Hstop.
  - rewrite !(quiet_ServerIsRunning self w). exact Hidle.
  - destruct (ServerIsReady_after self w) as [-> | ->];
      [exact Hidle | apply Hreq].
  - rewrite !(quiet_DebugInfo self w). exact Hidle.
  - split; [done |]. exists []. by rewrite app_nil_r.
Qed.

Lemma session_keeps_secret calls self w :
  _hmac_secret (fst (session calls (self, w))) = _hmac_secret self
  ∧ ∃ new,
      events (snd (session calls (self, w))) = (events w ++ new)%list
      ∧ Forall (session_event (_hmac_secret self)) new.
Proof.
  revert self w. induction calls as [| c calls IH]; intros self w.
  - split; [done |]. exists []. by rewrite app_nil_r.
  - cbn [session fold_left].
    destruct (perform_keeps_secret c self w) as (Hs & new1 & Hev1 & Hnew1).
    destruct (perform c (self, w)) as [self1 w1]. cbn [fst snd] in *.
    destruct (IH self1 w1) as (Hs2 & new2 & Hev2 & Hnew2).
    fold (session calls (self1, w1)).
    split; [congruence |].
    exists (new1 ++ new2)%list. split.
    + by rewrite Hev2, Hev1, app_assoc.
    + apply Forall_app. split; [done |]. by rewrite <- Hs.
Qed.

(** C10: a start that nothing hinders (every library call returns, no
    brace in the temp dir) replaces the secret by the base64 text of 16
    bytes of [os.urandom], 24 characters, writes exactly that to the secret
    file before it spawns the process, and until the next start the secret
    stays what it is and every request is signed with it. *)
Theorem session_signs_with_start_secret os self w calls :
  unhindered os →
  let secret := b64encode (urandom (env_entropy os) HMAC_SECRET_LENGTH) in
  let st := _StartServer os self w in
  let fin := session calls (snd (fst st), snd st) in
  length (urandom (env_entropy os) HMAC_SECRET_LENGTH) = 16%nat
  ∧ length secret = 24%nat
  ∧ _hmac_secret (snd (fst st)) = secret
  ∧ (∃ args env,
       events (snd st)
       = (events w ++
          [ EvWriteFile (env_secret_file os) secret;
            EvOpenLog (stderr_log os);
            EvOpenLog (stdout_log os);
            EvSpawn args env (env_pid os) ])%list)
  ∧ _hmac_secret (fst fin) = secret
  ∧ ∃ new,
      events (snd fin) = (events (snd st) ++ new)%list
      ∧ Forall (session_event secret) new.
Proof.
  intros Hos. cbn zeta. rewrite (StartServer_run _ _ _ Hos). cbn [fst snd].
  split; [apply urandom_length |].
  split; [by rewrite b64encode_length, urandom_length |].
  split; [done |].
  split; [by eexists _, _ |].
  apply (session_keeps_secret calls (started_completer os self)).
Qed.

End Session.

Lemma probe_lookup_and_stop_use_the_start_secret :
  _hmac_secret
    (fst (session (ext := Fixture.externals)
            [CallServerIsReady;
             CallComputeCandidatesInner (Some Fixture.request);
             CallStopServer]
            (snd (fst (_StartServer (ext := Fixture.externals)
                         (Fixture.os true) Fixture.blank Fixture.offline)),
             snd (_StartServer (ext := Fixture.externals) (Fixture.os true)
                    Fixture.blank Fixture.offline))))
  = b64encode (urandom (env_entropy (Fixture.os true)) HMAC_SECRET_LENGTH).
Proof.
  destruct (session_signs_with_start_secret (ext := Fixture.externals)
              (Fixture.os true) Fixture.blank Fixture.offline
              [CallServerIsReady;
               CallComputeCandidatesInner (Some Fixture.request);
               CallStopServer]
              (unhindered_fixture true))
    as (_ & _ & _ & _ & Hsecret & _).
  exact Hsecret.
Defined.

(** ** Go-to-definition on two answers *)

Example GoToDefinition_moves_column_to_one_based :
  fst (fst (_GoToDefinition (ext := Fixture.externals) (Some Fixture.request)
              (fst Fixture.unreachable)
              (Fixture.answering
                 (NetResponse 200
                    (Some (JObj [("file_path", JStr "a.rs");
                                 ("line", JNum 10);
                                 ("column", JNum 2)]))))))
  = Return (BuildGoToResponse (JStr "a.rs") (JNum 10) (JNum 3)).
Proof. vm_compute. reflexivity. Qed.

Example GoToDefinition_hides_the_cause :
  fst (fst (_GoToDefinition (ext := Fixture.externals) (Some Fixture.request)
              (fst Fixture.unreachable) (snd Fixture.unreachable)))
  = Raise (mkExn RuntimeError "Can't jump to definition.").
Proof. vm_compute. reflexivity. Qed.

(** * Further properties *)

(** ** Finding the binary and the source path *)

(** X1: a [racerd_binary_path] that names an existing file is the binary
    used, whatever else is installed. *)
Theorem FindRacerdBinary_user_path_wins site opts w path :
  racerd_binary_path opts = Some path →
  path ≠ "" →
  p_exists path w = true →
  FindRacerdBinary site opts w = Some path.
Proof.
  intros Hopt Hne%String.eqb_neq Hfile. unfold FindRacerdBinary.
  rewrite Hopt. cbn [truthy_str str_opt]. by rewrite Hne, Hfile.
Qed.

Lemma user_binary_is_used :
  FindRacerdBinary Fixture.site
    (mkUserOptions (Some "/opt/racerd") false None)
    (Fixture.answering_with_binary "/opt/racerd")
  = Some "/opt/racerd".
Proof.
  apply (FindRacerdBinary_user_path_wins Fixture.site
           (mkUserOptions (Some "/opt/racerd") false None)
           (Fixture.answering_with_binary "/opt/racerd") "/opt/racerd");
    [reflexivity | done | vm_compute; reflexivity].
Defined.

(** X2: the binary found is an existing file, unless it is the one the
    search along [PATH] gave. *)
Theorem FindRacerdBinary_found site opts w path :
  FindRacerdBinary site opts w = Some path →
  p_exists path w = true ∨ racerd_on_path site = Some path.
Proof.
  unfold FindRacerdBinary.
  destruct (truthy_str (racerd_binary_path opts)
            && p_exists (str_opt (racerd_binary_path opts)) w) eqn:Huser.
  - apply andb_true_iff in Huser as [_ Hfile].
    intros Hpath. rewrite Hpath in Hfile. by left.
  - destruct (p_exists (RACERD_BINARY_RELEASE site) w) eqn:Hrel;
      [intros [= <-]; by left |].
    destruct (p_exists (RACERD_BINARY_DEBUG site) w) eqn:Hdbg;
      [intros [= <-]; by left |].
    by right.
Qed.

Lemma release_build_found_exists :
  p_exists "/ycmd/third_party/racerd/target/release/racerd" Fixture.offline
  = true
  ∨ racerd_on_path Fixture.site
    = Some "/ycmd/third_party/racerd/target/release/racerd".
Proof.
  exact (FindRacerdBinary_found Fixture.site (Fixture.options false None)
           Fixture.offline "/ycmd/third_party/racerd/target/release/racerd"
           eq_refl).
Defined.

(** X3: a [racerd_binary_path] that names no file is ignored, the search
    going on as if it were unset; and then the release build, when there
    is one, is taken before the debug build and [PATH]. *)
Theorem FindRacerdBinary_missing_user_path site opts w path :
  racerd_binary_path opts = Some path →
  p_exists path w = false →
  FindRacerdBinary site opts w
  = FindRacerdBinary site (without_binary_path opts) w
  ∧ (p_exists (RACERD_BINARY_RELEASE site) w = true →
     FindRacerdBinary site opts w = Some (RACERD_BINARY_RELEASE site)).
Proof.
  intros Hopt Hfile. unfold FindRacerdBinary, without_binary_path.
  rewrite Hopt. cbn [racerd_binary_path truthy_str str_opt andb].
  rewrite Hfile, andb_false_r. split; [done |]. by intros ->.
Qed.

Lemma missing_user_binary_is_ignored :
  FindRacerdBinary Fixture.site
    (mkUserOptions (Some "/opt/racerd") false None) Fixture.offline
  = Some "/ycmd/third_party/racerd/target/release/racerd".
Proof.
  exact (proj2
    (FindRacerdBinary_missing_user_path Fixture.site
       (mkUserOptions (Some "/opt/racerd") false None) Fixture.offline
       "/opt/racerd" eq_refl eq_refl) eq_refl).
Defined.

(** X4: a non-empty [rust_src_path] option is the source path, whatever
    the environment says; an unset or empty one leaves the choice to
    [RUST_SRC_PATH], and there is no source path when that is unset too. *)
Theorem GetRustSrcPath_fallback opts w :
  (∀ path, rust_src_path opts = Some path → path ≠ "" →
           _GetRustSrcPath opts w = Some path)
  ∧ (truthy_str (rust_src_path opts) = false →
     _GetRustSrcPath opts w = environ w !! "RUST_SRC_PATH").
Proof.
  unfold _GetRustSrcPath. split.
  - intros path -> Hne%String.eqb_neq. cbn [truthy_str]. by rewrite Hne.
  - intros ->. by destruct (environ w !! "RUST_SRC_PATH").
Qed.

Lemma empty_option_defers_to_environment :
  _GetRustSrcPath (mkUserOptions None false (Some ""))
    (mkWorld ∅ ∅ {[ "RUST_SRC_PATH" := "/usr/src/rust" ]} []
       (λ _ _, NetRaise Fixture.refused))
  = Some "/usr/src/rust"
  ∧ _GetRustSrcPath (mkUserOptions None false (Some "/home/me/rust"))
      (mkWorld ∅ ∅ {[ "RUST_SRC_PATH" := "/usr/src/rust" ]} []
         (λ _ _, NetRaise Fixture.refused))
    = Some "/home/me/rust".
Proof.
  split.
  - exact (proj2 (GetRustSrcPath_fallback (mkUserOptions None false (Some ""))
                    (mkWorld ∅ ∅ {[ "RUST_SRC_PATH" := "/usr/src/rust" ]} []
                       (λ _ _, NetRaise Fixture.refused))) eq_refl).
  - exact (proj1 (GetRustSrcPath_fallback
                    (mkUserOptions None false (Some "/home/me/rust"))
                    (mkWorld ∅ ∅ {[ "RUST_SRC_PATH" := "/usr/src/rust" ]} []
                       (λ _ _, NetRaise Fixture.refused)))
             "/home/me/rust" eq_refl ltac:(done)).
Defined.

(** ** Construction *)

Section Constructing.

Context {ext : Externals}.

(** X5: with no usable [racerd_binary_path], no build under [third_party]
    and nothing on [PATH], the constructor raises the binary-not-found
    error, whose text quotes the build command in double quotes, and has
    started nothing, written nothing and spawned nothing. *)
Theorem init_without_binary site opts os w :
  truthy_str (racerd_binary_path opts)
  && p_exists (str_opt (racerd_binary_path opts)) w = false →
  p_exists (RACERD_BINARY_RELEASE site) w = false →
  p_exists (RACERD_BINARY_DEBUG site) w = false →
  truthy_str (racerd_on_path site) = false →
  fst (fst (__init__ site opts os w))
  = Raise (mkExn RuntimeError BINARY_NOT_FOUND_MESSAGE)
  ∧ snd (__init__ site opts os w) = w
  ∧ BINARY_NOT_FOUND_MESSAGE
    = "racerd binary not found. Did you build it? You can do so by running "
      +:+ String "034" "./build.py --racer-completer"
      +:+ String "034" ".".
Proof.
  intros Huser Hrel Hdbg Hpath. unfold __init__, FindRacerdBinary.
  rewrite Huser, Hrel, Hdbg, Hpath. done.
Qed.

(** X6: when a binary is found, the completer is built around it, with the
    log retention flag and the source path the options and the environment
    give, whatever becomes of the start; when nothing hinders the start
    (every library call returns, no brace in the temp dir), construction
    succeeds exactly when the spawned process is running, and the
    completer it yields reports a running server. *)
Theorem init_with_binary site opts os w binary :
  FindRacerdBinary site opts w = Some binary →
  binary ≠ "" →
  _racerd (snd (fst (__init__ site opts os w))) = binary
  ∧ _keep_logfiles (snd (fst (__init__ site opts os w)))
    = server_keep_logfiles opts
  ∧ _rust_source_path (snd (fst (__init__ site opts os w)))
    = _GetRustSrcPath opts w
  ∧ (unhindered os →
     fst (fst (__init__ site opts os w))
     = (if env_spawn_alive os then Return tt
        else Raise (mkExn RuntimeError "Failed to start racerd!"))
     ∧ fst (fst (ServerIsRunning (snd (fst (__init__ site opts os w)))
                   (snd (__init__ site opts os w))))
       = Return (env_spawn_alive os)).
Proof.
  intros Hfound Hne%String.eqb_neq. unfold __init__.
  rewrite Hfound. cbn [truthy_str str_opt]. rewrite Hne. cbn [negb].
  split_and!; [apply StartServer_effects.. |].
  intros Hos. rewrite (StartServer_run _ _ _ Hos). cbn [fst snd].
  rewrite ServerIsRunning_run. cbn [fst started_completer _racerd_host
    _racerd_phandle].
  rewrite started_process_state. done.
Qed.

End Constructing.

Lemma no_binary_no_completer :
  fst (fst (__init__ (ext := Fixture.externals) Fixture.site
              (Fixture.options false None) (Fixture.os true) Fixture.bare))
  = Raise (mkExn RuntimeError BINARY_NOT_FOUND_MESSAGE)
  ∧ snd (__init__ (ext := Fixture.externals) Fixture.site
           (Fixture.options false None) (Fixture.os true) Fixture.bare)
    = Fixture.bare.
Proof.
  destruct (init_without_binary (ext := Fixture.externals) Fixture.site
              (Fixture.options false None) (Fixture.os true) Fixture.bare
              eq_refl eq_refl eq_refl eq_refl)
    as (Hraised & Hworld & _).
  exact (conj Hraised Hworld).
Defined.

Lemma constructed_on_the_release_build :
  _racerd (snd (fst (__init__ (ext := Fixture.externals) Fixture.site
                       (Fixture.options false None) (Fixture.os true)
                       Fixture.offline)))
  = "/ycmd/third_party/racerd/target/release/racerd"
  ∧ fst (fst (ServerIsRunning
                (snd (fst (__init__ (ext := Fixture.externals) Fixture.site
                             (Fixture.options false None) (Fixture.os true)
                             Fixture.offline)))
                (snd (__init__ (ext := Fixture.externals) Fixture.site
                        (Fixture.options false None) (Fixture.os true)
                        Fixture.offline))))
    = Return true.
Proof.
  destruct (init_with_binary (ext := Fixture.externals) Fixture.site
              (Fixture.options false None) (Fixture.os true) Fixture.offline
              "/ycmd/third_party/racerd/target/release/racerd"
              eq_refl ltac:(done))
    as (Hbinary & _ & _ & Hstart).
  destruct (Hstart (unhindered_fixture true)) as [_ Hrunning].
  exact (conj Hbinary Hrunning).
Defined.

(** ** What a start does to the machine *)

Lemma log_paths_differ os : stdout_log os ≠ stderr_log os.
Proof.
  unfold stdout_log, stderr_log, p_join, log_name.
  destruct (_ || _); intros H;
    repeat (apply (inj (String.append _)) in H); discriminate H.
Qed.

Section Machine.

Context {ext : Externals}.

(** X7: when nothing hinders the start, the process is spawned last, as
    [racerd serve --port <port> -l --secret-file <file>], followed by
    [--rust-src-path <path>] exactly when a source path is configured; its
    environment is the caller's with [RUST_BACKTRACE=1] added, and the
    caller's own environment is left as it was. *)
Theorem StartServer_command_line os self w :
  unhindered os →
  ∃ before env,
    events (snd (_StartServer os self w))
    = (events w ++ before
       ++ [EvSpawn
             ([ _racerd self; "serve"; "--port"; pretty (env_port os);
                "-l"; "--secret-file"; env_secret_file os ]
              ++ (if truthy_str (_rust_source_path self)
                  then [ "--rust-src-path";
                         str_opt (_rust_source_path self) ]
                  else []))
             env (env_pid os)])%list
    ∧ Forall (λ ev, match ev with EvSpawn _ _ _ => False | _ => True end)
        before
    ∧ env !! "RUST_BACKTRACE" = Some "1"
    ∧ (∀ k, k ≠ "RUST_BACKTRACE" → env !! k = environ w !! k)
    ∧ environ (snd (_StartServer os self w)) = environ w.
Proof.
  intros Hos. rewrite (StartServer_run _ _ _ Hos).
  cbn [snd started_world events environ].
  exists [ EvWriteFile (env_secret_file os) (session_secret os);
           EvOpenLog (stderr_log os); EvOpenLog (stdout_log os) ],
    (<["RUST_BACKTRACE" := "1"]> (environ w)).
  split_and!.
  - unfold start_events, spawn_args.
    by destruct (truthy_str (_rust_source_path self)).
  - by repeat constructor.
  - apply lookup_insert_eq.
  - intros k Hk. by apply lookup_insert_ne.
  - done.
Qed.

(** X8: for a temp dir whose path holds no brace, and library calls that
    return, the two logs of a session are different files; right after the
    start both exist and are empty, the completer records their paths,
    [<temp dir>/racerd_<port>_stdout.log] and
    [<temp dir>/racerd_<port>_stderr.log], and every file other than the
    two logs and the secret file is as it was. *)
Theorem StartServer_creates_logs os self w :
  unhindered os →
  stdout_log os ≠ stderr_log os
  ∧ _server_stdout (snd (fst (_StartServer os self w)))
    = Some (p_join (env_tmpdir os)
              ("racerd_" +:+ pretty (env_port os) +:+ "_stdout.log"))
  ∧ _server_stderr (snd (fst (_StartServer os self w)))
    = Some (p_join (env_tmpdir os)
              ("racerd_" +:+ pretty (env_port os) +:+ "_stderr.log"))
  ∧ files (snd (_StartServer os self w)) !! stdout_log os = Some []
  ∧ files (snd (_StartServer os self w)) !! stderr_log os = Some []
  ∧ (∀ path, path ≠ stdout_log os → path ≠ stderr_log os →
             path ≠ env_secret_file os →
             files (snd (_StartServer os self w)) !! path = files w !! path).
Proof.
  intros Hos. rewrite (StartServer_run _ _ _ Hos).
  cbn [fst snd started_world started_completer files
    _server_stdout _server_stderr].
  pose proof (log_paths_differ os) as Hdiff.
  split_and!; try done.
  - apply lookup_insert_eq.
  - rewrite lookup_insert_ne by done. apply lookup_insert_eq.
  - intros path H1 H2 H3. by rewrite !lookup_insert_ne.
Qed.

(** X9: a start stops nothing, whatever way it takes: every process other
    than the one it spawns is running afterwards exactly if it was before,
    the one behind a handle the completer still held included. *)
Theorem StartServer_leaves_other_processes os self w (pid : Popen) :
  pid ≠ env_pid os →
  ProcessIsRunning (Some pid) (snd (_StartServer os self w))
  = ProcessIsRunning (Some pid) w.
Proof.
  intros Hpid. cbn [ProcessIsRunning]. apply bool_decide_ext.
  by apply StartServer_effects.
Qed.

(** X25: a start returns only after every step of it: both log paths are
    what formatting the joined path gave, whatever the temp dir, and are
    the paths recorded; the secret written is the one the completer holds;
    the secret file is written, the stderr log opened, the stdout log
    opened and the process spawned, in that order and nothing else; and
    the spawned process is running. *)
Theorem StartServer_returns_after_every_step os self w :
  fst (fst (_StartServer os self w)) = Return tt →
  ∃ out err args env,
    format_log (env_tmpdir os) (env_port os) "stdout" = Return out
    ∧ format_log (env_tmpdir os) (env_port os) "stderr" = Return err
    ∧ _server_stdout (snd (fst (_StartServer os self w))) = Some out
    ∧ _server_stderr (snd (fst (_StartServer os self w))) = Some err
    ∧ _hmac_secret (snd (fst (_StartServer os self w)))
      = b64encode (urandom (env_entropy os) HMAC_SECRET_LENGTH)
    ∧ events (snd (_StartServer os self w))
      = (events w
         ++ [ EvWriteFile (env_secret_file os)
                (_hmac_secret (snd (fst (_StartServer os self w))));
              EvOpenLog err;
              EvOpenLog out;
              EvSpawn args env (env_pid os) ])%list
    ∧ ProcessIsRunning (Some (env_pid os)) (snd (_StartServer os self w))
      = true.
Proof.
  intros Hret.
  destruct (StartServer_returned _ _ _ Hret)
    as (out & err & Hout & Herr & _ & -> & ->).
  exists out, err. eexists _, _.
  cbn [_server_stdout _server_stderr _hmac_secret events ProcessIsRunning
       alive].
  split_and!; try done.
  apply bool_decide_eq_true_2, elem_of_union_r, elem_of_singleton.
  reflexivity.
Qed.

End Machine.

Lemma first_start_spawns_racerd_last :
  ∃ before env,
    events (snd (_StartServer (ext := Fixture.externals) (Fixture.os true)
                   Fixture.blank Fixture.offline))
    = (events Fixture.offline ++ before
       ++ [EvSpawn
             ([ _racerd Fixture.blank; "serve"; "--port";
                pretty (env_port (Fixture.os true));
                "-l"; "--secret-file"; env_secret_file (Fixture.os true) ]
              ++ (if truthy_str (_rust_source_path Fixture.blank)
                  then [ "--rust-src-path";
                         str_opt (_rust_source_path Fixture.blank) ]
                  else []))
             env (env_pid (Fixture.os true))])%list
    ∧ env !! "RUST_BACKTRACE" = Some "1".
Proof.
  destruct (StartServer_command_line (ext := Fixture.externals)
              (Fixture.os true) Fixture.blank Fixture.offline
              (unhindered_fixture true))
    as (before & env & Hevents & _ & Hbacktrace & _).
  exists before, env. exact (conj Hevents Hbacktrace).
Defined.

Lemma first_start_creates_both_logs :
  _server_stdout
    (snd (fst (_StartServer (ext := Fixture.externals) (Fixture.os true)
                 Fixture.blank Fixture.offline)))
  = Some (p_join (env_tmpdir (Fixture.os true))
            ("racerd_" +:+ pretty (env_port (Fixture.os true))
             +:+ "_stdout.log"))
  ∧ files (snd (_StartServer (ext := Fixture.externals) (Fixture.os true)
                  Fixture.blank Fixture.offline))
    !! stdout_log (Fixture.os true)
    = Some [].
Proof.
  destruct (StartServer_creates_logs (ext := Fixture.externals)
              (Fixture.os true) Fixture.blank Fixture.offline
              (unhindered_fixture true))
    as (_ & Hpath & _ & Hfile & _).
  exact (conj Hpath Hfile).
Defined.

Lemma returned_start_has_spawned_a_running_process :
  ∃ out err args env,
    events (snd (_StartServer (ext := Fixture.externals) (Fixture.os true)
                   Fixture.blank Fixture.offline))
    = (events Fixture.offline
       ++ [ EvWriteFile (env_secret_file (Fixture.os true))
              (_hmac_secret
                 (snd (fst (_StartServer (ext := Fixture.externals)
                              (Fixture.os true) Fixture.blank
                              Fixture.offline))));
            EvOpenLog err;
            EvOpenLog out;
            EvSpawn args env (env_pid (Fixture.os true)) ])%list
    ∧ ProcessIsRunning (Some (env_pid (Fixture.os true)))
        (snd (_StartServer (ext := Fixture.externals) (Fixture.os true)
                Fixture.blank Fixture.offline))
      = true.
Proof.
  destruct (StartServer_returns_after_every_step (ext := Fixture.externals)
              (Fixture.os true) Fixture.blank Fixture.offline
              ltac:(vm_compute; reflexivity))
    as (out & err & args & env & _ & _ & _ & _ & _ & Hevents & Hrunning).
  exists out, err, args, env. exact (conj Hevents Hrunning).
Defined.

Lemma second_start_leaves_first_process :
  ProcessIsRunning (Some 77%positive)
    (snd (_StartServer (ext := Fixture.externals) Fixture.os_again
            (fst Fixture.unreachable) (snd Fixture.unreachable)))
  = true.
Proof.
  pose proof (StartServer_leaves_other_processes (ext := Fixture.externals)
                Fixture.os_again
                (fst Fixture.unreachable) (snd Fixture.unreachable)
                77%positive ltac:(done)) as H.
  etrans; [exact H | vm_compute; reflexivity].
Defined.

(** ** Stopping and restarting *)

Lemma StopServer_with_handle self w pid :
  _racerd_phandle self = Some pid →
  ProcessIsRunning (Some pid) (snd (_StopServer self w)) = false
  ∧ _racerd_host (snd (fst (_StopServer self w))) = None
  ∧ environ (snd (_StopServer self w)) = environ w
  ∧ ∃ removed,
      events (snd (_StopServer self w))
      = (events w ++ EvTerminate pid :: EvWait pid :: removed)%list
      ∧ Forall (λ ev, match ev with EvUnlink _ => True | _ => False end)
          removed.
Proof.
  intros Hhandle.
  assert (bool_decide (pid ∈ alive w ∖ {[pid]}) = false) as Hgone.
  { apply bool_decide_eq_false_2.
    rewrite elem_of_difference, elem_of_singleton. by intros [_ []]. }
  destruct self as [racerd host keep secret src handle out err].
  cbn in Hhandle. subst handle.
  destruct keep, out, err; stop_split; rewrite <- ?app_assoc; cbn [app];
    (split_and!; [exact Hgone | done | done |]);
    (eexists; split; [reflexivity | by repeat constructor]).
Qed.

(** X10: stopping a completer that holds a process handle terminates that
    process and then waits for it, before any log is removed; afterwards
    the process is not running and no address is recorded. *)
Theorem StopServer_terminates_then_waits self w pid :
  _racerd_phandle self = Some pid →
  ProcessIsRunning (Some pid) (snd (_StopServer self w)) = false
  ∧ _racerd_host (snd (fst (_StopServer self w))) = None
  ∧ _racerd_phandle (snd (fst (_StopServer self w))) = None
  ∧ ∃ removed,
      events (snd (_StopServer self w))
      = (events w ++ EvTerminate pid :: EvWait pid :: removed)%list
      ∧ Forall (λ ev, match ev with EvUnlink _ => True | _ => False end)
          removed.
Proof.
  intros Hhandle.
  destruct (StopServer_with_handle self w pid Hhandle)
    as (Hgone & Hhost & _ & Hevents).
  split_and!; [done | done | apply StopServer_fields | done].
Qed.

Lemma stop_ends_the_started_process :
  ProcessIsRunning (Some 77%positive)
    (snd (_StopServer (fst Fixture.unreachable) (snd Fixture.unreachable)))
  = false
  ∧ _racerd_host
      (snd (fst (_StopServer (fst Fixture.unreachable)
                   (snd Fixture.unreachable))))
    = None.
Proof.
  destruct (StopServer_terminates_then_waits (fst Fixture.unreachable)
              (snd Fixture.unreachable) 77%positive eq_refl)
    as (Hgone & Hhost & _).
  exact (conj Hgone Hhost).
Defined.

(** X11: with log retention on, stopping removes no file, leaves the file
    system as it was and keeps both log paths recorded. *)
Theorem StopServer_keeps_logs_when_asked self w :
  _keep_logfiles self = true →
  files (snd (_StopServer self w)) = files w
  ∧ _server_stdout (snd (fst (_StopServer self w))) = _server_stdout self
  ∧ _server_stderr (snd (fst (_StopServer self w))) = _server_stderr self
  ∧ Forall (λ ev, match ev with EvUnlink _ => False | _ => True end)
      (drop (length (events w)) (events (snd (_StopServer self w)))).
Proof.
  intros Hkeep.
  destruct self as [racerd host keep secret src handle out err].
  cbn in Hkeep. subst keep.
  destruct handle; stop_split; (split_and!; [done | done | done |]).
  - rewrite <- app_assoc, drop_app_length. by repeat constructor.
  - by rewrite drop_all.
Qed.

Lemma kept_logs_survive_the_stop :
  files (snd (_StopServer
                (fst (Fixture.constructed true None Fixture.offline))
                (snd (Fixture.constructed true None Fixture.offline))))
  = files (snd (Fixture.constructed true None Fixture.offline))
  ∧ _server_stdout
      (snd (fst (_StopServer
                   (fst (Fixture.constructed true None Fixture.offline))
                   (snd (Fixture.constructed true None Fixture.offline)))))
    = _server_stdout (fst (Fixture.constructed true None Fixture.offline)).
Proof.
  destruct (StopServer_keeps_logs_when_asked
              (fst (Fixture.constructed true None Fixture.offline))
              (snd (Fixture.constructed true None Fixture.offline)) eq_refl)
    as (Hfiles & Hout & _).
  exact (conj Hfiles Hout).
Defined.




Section Cleanup.

Context {ext : Externals}.


(** X13: restarting a server that is not running only starts one: the
    outcome is that of [_StartServer], and nothing is terminated, waited
    for or unlinked on the way, whatever handle and logs were left and
    whatever way the start takes. *)
Theorem RestartServer_when_not_running os self w :
  fst (fst (ServerIsRunning self w)) = Return false →
  _RestartServer os self w = _StartServer os self w
  ∧ Forall (λ ev, match ev with
                  | EvTerminate _ | EvWait _ | EvUnlink _ => False
                  | _ => True
                  end)
      (drop (length (events w)) (events (snd (_RestartServer os self w)))).
Proof.
  rewrite ServerIsRunning_run. cbn [fst]. intros [= Hrun].
  assert (_RestartServer os self w = _StartServer os self w) as ->.
  { unfold _RestartServer. run. rewrite ServerIsRunning_run, Hrun. done. }
  split; [done |].
  destruct (StartServer_effects os self w)
    as (_ & _ & _ & _ & _ & new & -> & Hnew).
  by rewrite drop_app_length.
Qed.


End Cleanup.


Lemma restart_after_stop_only_starts :
  _RestartServer (ext := Fixture.externals) (Fixture.os true)
    (fst Fixture.stopped_keeping_logs) (snd Fixture.stopped_keeping_logs)
  = _StartServer (ext := Fixture.externals) (Fixture.os true)
      (fst Fixture.stopped_keeping_logs) (snd Fixture.stopped_keeping_logs).
Proof.
  exact (proj1 (RestartServer_when_not_running (ext := Fixture.externals)
                  (Fixture.os true)
                  (fst Fixture.stopped_keeping_logs)
                  (snd Fixture.stopped_keeping_logs) eq_refl)).
Defined.


(** ** Requests: translation, go-to-definition, readiness *)

(** X15: the request sent to racerd keeps the file path and the line, moves
    the 1-based column to 0-based, and lists the buffers of [file_data] in
    their order, each with its path and contents; no request data gives no
    parameters. *)
Theorem ConvertToRacerdRequest_shape rd :
  _ConvertToRacerdRequest None = None
  ∧ ∃ r,
      _ConvertToRacerdRequest (Some rd) = Some r
      ∧ file_path r = filepath rd
      ∧ line r = line_num rd
      ∧ column r = column_num rd - 1
      ∧ map buf_file_path (buffers r) = map fst (file_data rd)
      ∧ map buf_contents (buffers r)
        = map (λ kv, contents (snd kv)) (file_data rd).
Proof.
  split; [done |]. eexists. split; [reflexivity |].
  cbn [file_path line column buffers].
  split_and!; try done; rewrite map_map; apply map_ext; by intros [? ?].
Qed.

Lemma every_class_is_an_exception (c : ExnClass) :
  issubclass c Exception_ = true.
Proof. by destruct c. Qed.

Section Lookup.

Context {ext : Externals}.

(** X16: [_GoToDefinition] lets no other exception out: whatever the
    request data, the completer and the world, it returns a location or
    raises [RuntimeError("Can't jump to definition.")]; an answer without
    content and a refused connection are both such failures. *)
Theorem GoToDefinition_uniform_failure rd self w :
  (∀ e, fst (fst (_GoToDefinition rd self w)) = Raise e →
        e = mkExn RuntimeError "Can't jump to definition.")
  ∧ (∀ body,
       network w (events w) (request_of "/find_definition" rd "POST" self)
       = NetResponse no_content body →
       fst (fst (_GoToDefinition rd self w))
       = Raise (mkExn RuntimeError "Can't jump to definition."))
  ∧ (∀ e,
       network w (events w) (request_of "/find_definition" rd "POST" self)
       = NetRaise e →
       fst (fst (_GoToDefinition rd self w))
       = Raise (mkExn RuntimeError "Can't jump to definition.")).
Proof.
  unfold _GoToDefinition, try_except. split_and!.
  - intros e.
    destruct (bind _ _ self w) as [[[r | e'] self'] w']; [done |].
    rewrite every_class_is_an_exception. by intros [= <-].
  - intros body Hnet. unfold bind at 1.
    rewrite GetResponse_requests. cbn zeta. rewrite Hnet. cbn. done.
  - intros e Hnet. unfold bind at 1.
    rewrite GetResponse_requests. cbn zeta. rewrite Hnet.
    by rewrite every_class_is_an_exception.
Qed.

(** X17: when racerd answers a definition request with an object holding
    [file_path], [line] and an integer [column], [_GoToDefinition] returns
    that path and line with the column moved to 1-based. *)
Theorem GoToDefinition_location rd self w status members f l (c : Z) :
  network w (events w) (request_of "/find_definition" rd "POST" self)
  = NetResponse status (Some (JObj members)) →
  (400 <=? status) && (status <? 600) = false →
  status ≠ no_content →
  assoc "file_path" members = Some f →
  assoc "line" members = Some l →
  assoc "column" members = Some (JNum c) →
  fst (fst (_GoToDefinition rd self w))
  = Return (BuildGoToResponse f l (JNum (c + 1))).
Proof.
  intros Hnet Hok Hcontent%Z.eqb_neq Hf Hl Hc.
  unfold _GoToDefinition, try_except. unfold bind at 1.
  rewrite GetResponse_requests. cbn zeta. rewrite Hnet, Hok, Hcontent.
  run. cbn [getitem]. rewrite Hf, Hl, Hc. done.
Qed.

(** X18: the two translations undo each other: if racerd answers with the
    very line and column it was sent, [_GoToDefinition] returns the
    1-based column of the request. *)
Theorem GoToDefinition_returns_to_the_cursor rd r self w :
  _ConvertToRacerdRequest (Some rd) = Some r →
  network w (events w)
    (request_of "/find_definition" (Some rd) "POST" self)
  = NetResponse 200
      (Some (JObj [("file_path", JStr (file_path r));
                   ("line", JNum (line r));
                   ("column", JNum (column r))])) →
  fst (fst (_GoToDefinition (Some rd) self w))
  = Return (BuildGoToResponse (JStr (filepath rd)) (JNum (line_num rd))
              (JNum (column_num rd))).
Proof.
  intros [= <-] Hnet.
  unfold _GoToDefinition, try_except. unfold bind at 1.
  rewrite GetResponse_requests. cbn zeta. rewrite Hnet.
  run. cbn. do 3 f_equal. lia.
Qed.

(** X19: a completion fetch and a definition lookup each make exactly one
    request, a POST to their handler, and change nothing else: not an
    attribute of the completer, not a process, not a file. *)
Theorem lookups_make_one_request rd self w :
  after (ComputeCandidatesInner rd self w)
  = (self,
     mkWorld (alive w) (files w) (environ w)
       (events w
        ++ [EvRequest (request_of "/list_completions" rd "POST" self)])
       (network w))
  ∧ after (_GoToDefinition rd self w)
    = (self,
       mkWorld (alive w) (files w) (environ w)
         (events w
          ++ [EvRequest (request_of "/find_definition" rd "POST" self)])
         (network w))
  ∧ req_method (request_of "/list_completions" rd "POST" self)
    = list_byte_of_string "POST"
  ∧ req_method (request_of "/find_definition" rd "POST" self)
    = list_byte_of_string "POST".
Proof.
  rewrite ComputeCandidatesInner_after, GoToDefinition_after.
  rewrite !GetResponse_after. done.
Qed.

(** X20: [ServerIsReady] says [True] only when the server is running and
    [/ping], asked by a GET without a body, was answered with a status
    outside the error range and either no content or a JSON body. *)
Theorem ServerIsReady_true_means_answered self w :
  fst (fst (ServerIsReady self w)) = Return true →
  fst (fst (ServerIsRunning self w)) = Return true
  ∧ req_method (request_of "/ping" None "GET" self)
    = list_byte_of_string "GET"
  ∧ req_data (request_of "/ping" None "GET" self) = []
  ∧ ∃ status body,
      network w (events w) (request_of "/ping" None "GET" self)
      = NetResponse status body
      ∧ (400 <=? status) && (status <? 600) = false
      ∧ (status = no_content ∨ is_Some body).
Proof.
  unfold ServerIsReady. run. rewrite ServerIsRunning_run. cbn [fst].
  destruct (truthy_str (_racerd_host self) && _); cbn [negb]; [| done].
  rewrite GetResponse_requests. cbn zeta. intros Hready.
  split_and!; try done.
  destruct (network w _ _) as [e | status body].
  { by destruct (issubclass _ _). }
  exists status, body. split; [done |].
  destruct ((400 <=? status) && (status <? 600)).
  { by destruct (issubclass _ _). }
  split; [done |].
  destruct (status =? no_content) eqn:Hstatus.
  { left. by apply Z.eqb_eq. }
  right. destruct body; [eauto |]. by destruct (issubclass _ _).
Qed.

End Lookup.

Lemma refused_lookup_cannot_jump :
  fst (fst (_GoToDefinition (ext := Fixture.externals) (Some Fixture.request)
              (fst Fixture.unreachable) (snd Fixture.unreachable)))
  = Raise (mkExn RuntimeError "Can't jump to definition.").
Proof.
  exact (proj2 (proj2
    (GoToDefinition_uniform_failure (ext := Fixture.externals)
       (Some Fixture.request) (fst Fixture.unreachable)
       (snd Fixture.unreachable))) Fixture.refused eq_refl).
Defined.

Lemma definition_in_another_file :
  fst (fst (_GoToDefinition (ext := Fixture.externals) (Some Fixture.request)
              (fst Fixture.unreachable)
              (Fixture.answering
                 (NetResponse 200
                    (Some (JObj [("file_path", JStr "a.rs");
                                 ("line", JNum 10);
                                 ("column", JNum 2)]))))))
  = Return (BuildGoToResponse (JStr "a.rs") (JNum 10) (JNum (2 + 1))).
Proof.
  exact (GoToDefinition_location (ext := Fixture.externals)
           (Some Fixture.request) (fst Fixture.unreachable)
           (Fixture.answering
              (NetResponse 200
                 (Some (JObj [("file_path", JStr "a.rs");
                              ("line", JNum 10);
                              ("column", JNum 2)]))))
           200 _ (JStr "a.rs") (JNum 10) 2
           eq_refl eq_refl ltac:(done) eq_refl eq_refl eq_refl).
Defined.

Lemma echoed_position_comes_back :
  fst (fst (_GoToDefinition (ext := Fixture.externals) (Some Fixture.request)
              (fst Fixture.unreachable)
              (Fixture.answering
                 (NetResponse 200
                    (Some (JObj [("file_path", JStr "src/main.rs");
                                 ("line", JNum 1);
                                 ("column", JNum 3)]))))))
  = Return (BuildGoToResponse (JStr "src/main.rs") (JNum 1) (JNum 4)).
Proof.
  exact (GoToDefinition_returns_to_the_cursor (ext := Fixture.externals)
           Fixture.request
           (mkRacerdRequest
              [mkBuffer "fn main() {}" "src/main.rs"] 1 3 "src/main.rs")
           (fst Fixture.unreachable)
           (Fixture.answering
              (NetResponse 200
                 (Some (JObj [("file_path", JStr "src/main.rs");
                              ("line", JNum 1);
                              ("column", JNum 3)]))))
           eq_refl eq_refl).
Defined.

Lemma answered_ping_is_ready :
  fst (fst (ServerIsRunning (fst Fixture.ready) (snd Fixture.ready)))
  = Return true
  ∧ req_data (request_of (ext := Fixture.externals) "/ping" None "GET"
                (fst Fixture.ready))
    = [].
Proof.
  destruct (ServerIsReady_true_means_answered (ext := Fixture.externals)
              (fst Fixture.ready) (snd Fixture.ready)
              ltac:(vm_compute; reflexivity))
    as (Hrunning & _ & Hbody & _).
  exact (conj Hrunning Hbody).
Defined.

(** ** Building the candidates *)

Lemma comprehension_returns {A B} (f : A → M B) (P : A → B → Prop)
    (xs : list A) self w :
  Forall (λ x, ∃ y, f x self w = (Return y, self, w) ∧ P x y) xs →
  ∃ ys, comprehension f xs self w = (Return ys, self, w) ∧ Forall2 P xs ys.
Proof.
  induction 1 as [| x xs (y & Hy & HP) _ (ys & Hys & HPs)].
  - by exists [].
  - exists (y :: ys). split; [| by constructor].
    cbn [comprehension]. run. by rewrite Hy, Hys.
Qed.

Lemma comprehension_raises {A B} (f : A → M B) (good : list A) (bad : A)
    (rest : list A) (e : Exn) self w :
  Forall (λ x, ∃ y, f x self w = (Return y, self, w)) good →
  f bad self w = (Raise e, self, w) →
  comprehension f (good ++ bad :: rest) self w = (Raise e, self, w).
Proof.
  intros Hgood Hbad. induction Hgood as [| x xs (y & Hy) _ IH].
  - cbn [app comprehension]. run. by rewrite Hbad.
  - cbn [app comprehension]. run. by rewrite Hy, IH.
Qed.

Lemma GetExtraData_returns completion f l (c : Z) self w :
  getitem completion "file_path" = Return f →
  getitem completion "line" = Return l →
  getitem completion "column" = Return (JNum c) →
  ∃ extra, _GetExtraData completion self w = (Return extra, self, w).
Proof.
  intros Hf Hl Hc. unfold _GetExtraData. run. rewrite Hf, Hl, Hc.
  cbn [truthy add1].
  destruct (truthy f), (truthy l), (c =? 0); cbn [negb];
    match goal with
    | |- context [bool_decide ?P] => destruct (bool_decide P)
    end; cbn [negb]; eauto.
Qed.

Section Candidates.

Context {ext : Externals}.

Lemma candidate_is_built item self w :
  complete_candidate item →
  ∃ cand,
    (text <- lift (getitem item "text") ;;
     kind <- lift (getitem item "kind") ;;
     context <- lift (getitem item "context") ;;
     extra <- _GetExtraData item ;;
     ret (BuildCompletionData text kind context extra)) self w
    = (Return cand, self, w)
    ∧ getitem item "text" = Return (insertion_text cand)
    ∧ getitem item "kind" = Return (kind cand)
    ∧ getitem item "context" = Return (extra_menu_info cand)
    ∧ fst (fst (_GetExtraData item self w)) = Return (extra_data cand).
Proof.
  intros (t & k & c & f & l & n & Ht & Hk & Hc & Hf & Hl & Hn).
  destruct (GetExtraData_returns item f l n self w Hf Hl Hn) as [extra Hx].
  exists (BuildCompletionData t k c extra). run.
  rewrite Ht, Hk, Hc, Hx. cbn. done.
Qed.

(** X21: when racerd answers with an array of complete candidates,
    [ComputeCandidatesInner] returns one entry per candidate, in the order
    sent, each holding that candidate's text, kind and context and the
    extra data [_GetExtraData] gives for it. *)
Theorem ComputeCandidatesInner_one_per_candidate
    rd self w self' w' (items : list Json) :
  _FetchCompletions rd self w = (Return (JArr items), self', w') →
  Forall complete_candidate items →
  ∃ candidates,
    ComputeCandidatesInner rd self w = (Return candidates, self', w')
    ∧ Forall2
        (λ item cand,
           getitem item "text" = Return (insertion_text cand)
           ∧ getitem item "kind" = Return (kind cand)
           ∧ getitem item "context" = Return (extra_menu_info cand)
           ∧ fst (fst (_GetExtraData item self' w'))
             = Return (extra_data cand))
        items candidates.
Proof.
  intros Hfetch Hitems. unfold ComputeCandidatesInner. run. rewrite Hfetch.
  destruct items as [| item items]; [by exists [] |].
  cbn [truthy length negb bool_decide iter]. run.
  replace (negb (negb (bool_decide (length (item :: items) = 0%nat))))
    with false by done.
  apply comprehension_returns.
  eapply Forall_impl; [exact Hitems |].
  intros x Hx. by apply candidate_is_built.
Qed.

(** X22: no partial result: if, after any number of complete candidates,
    one lacks the key [text], the whole call raises [KeyError('text')];
    and an answer that is a non-empty object instead of an array raises
    [TypeError]. *)
Theorem ComputeCandidatesInner_malformed_answer rd self w self' w' :
  (∀ good members rest,
     _FetchCompletions rd self w
     = (Return (JArr (good ++ JObj members :: rest)), self', w') →
     Forall complete_candidate good →
     assoc "text" members = None →
     ComputeCandidatesInner rd self w
     = (Raise (mkExn KeyError "text"), self', w'))
  ∧ (∀ member members,
       _FetchCompletions rd self w
       = (Return (JObj (member :: members)), self', w') →
       ComputeCandidatesInner rd self w
       = (Raise (mkExn TypeError "string indices must be integers"),
          self', w')).
Proof.
  split.
  - intros good members rest Hfetch Hgood Hmissing.
    unfold ComputeCandidatesInner. run. rewrite Hfetch.
    replace (negb (truthy (JArr (good ++ JObj members :: rest))))
      with false by (by destruct good).
    cbn [iter]. run.
    apply comprehension_raises.
    + eapply Forall_impl; [exact Hgood |].
      intros x Hx. destruct (candidate_is_built x self' w' Hx) as (c & Hc & _).
      by exists c.
    + run. cbn [getitem]. by rewrite Hmissing.
  - intros [key value] members Hfetch.
    unfold ComputeCandidatesInner. run. by rewrite Hfetch.
Qed.

End Candidates.

Lemma two_candidates_two_entries :
  ∃ candidates,
    ComputeCandidatesInner (ext := Fixture.externals) (Some Fixture.request)
      (fst Fixture.unreachable)
      (Fixture.answering
         (NetResponse 200
            (Some (JArr [Fixture.candidate 5; Fixture.candidate 0]))))
    = (Return candidates, fst Fixture.unreachable,
       emit (EvRequest
               (request_of (ext := Fixture.externals) "/list_completions"
                  (Some Fixture.request) "POST" (fst Fixture.unreachable)))
         (Fixture.answering
            (NetResponse 200
               (Some (JArr [Fixture.candidate 5; Fixture.candidate 0])))))
    ∧ length candidates = 2%nat.
Proof.
  destruct (ComputeCandidatesInner_one_per_candidate
              (ext := Fixture.externals) (Some Fixture.request)
              (fst Fixture.unreachable)
              (Fixture.answering
                 (NetResponse 200
                    (Some (JArr [Fixture.candidate 5; Fixture.candidate 0]))))
              (fst Fixture.unreachable)
              (emit (EvRequest
                       (request_of (ext := Fixture.externals)
                          "/list_completions" (Some Fixture.request) "POST"
                          (fst Fixture.unreachable)))
                 (Fixture.answering
                    (NetResponse 200
                       (Some (JArr [Fixture.candidate 5;
                                    Fixture.candidate 0])))))
              [Fixture.candidate 5; Fixture.candidate 0])
    as (candidates & Hrun & Hall).
  - unfold _FetchCompletions.
    rewrite (GetResponse_requests (ext := Fixture.externals)). reflexivity.
  - repeat constructor; unfold complete_candidate;
      do 6 eexists; repeat split; reflexivity.
  - exists candidates. split; [exact Hrun |].
    symmetry. exact (Forall2_length _ _ _ Hall).
Defined.

Lemma candidate_without_text_fails_the_fetch :
  ComputeCandidatesInner (ext := Fixture.externals) (Some Fixture.request)
    (fst Fixture.unreachable)
    (Fixture.answering
       (NetResponse 200
          (Some (JArr [Fixture.candidate 5;
                       JObj [("kind", JStr "Function")]]))))
  = (Raise (mkExn KeyError "text"), fst Fixture.unreachable,
     emit (EvRequest
             (request_of (ext := Fixture.externals) "/list_completions"
                (Some Fixture.request) "POST" (fst Fixture.unreachable)))
       (Fixture.answering
          (NetResponse 200
             (Some (JArr [Fixture.candidate 5;
                          JObj [("kind", JStr "Function")]]))))).
Proof.
  apply (proj1 (ComputeCandidatesInner_malformed_answer
                  (ext := Fixture.externals) (Some Fixture.request)
                  (fst Fixture.unreachable) _ _ _)
           [Fixture.candidate 5] [("kind", JStr "Function")] []).
  - unfold _FetchCompletions.
    rewrite (GetResponse_requests (ext := Fixture.externals)). reflexivity.
  - repeat constructor; unfold complete_candidate;
      do 6 eexists; repeat split; reflexivity.
  - reflexivity.
Defined.

(** ** Subcommands *)

Section Subcommands.

Context {ext : Externals}.


End Subcommands.

(** ** Headers *)

Section Headers.

Context {ext : Externals}.

(** X24: [_ExtraHeaders] changes nothing and returns exactly two headers,
    [content-type: application/json] and [x-racerd-hmac]; an absent body
    is signed as the empty one. *)
Theorem ExtraHeaders_two_headers method handler body self w :
  ∃ headers,
    _ExtraHeaders method handler body self w = (Return headers, self, w)
    ∧ dom headers = {[ "content-type"; RACERD_HMAC_HEADER ]}
    ∧ headers !! "content-type" = Some "application/json"
    ∧ (body = [] →
       headers !! RACERD_HMAC_HEADER
       = Some (hexlify (CreateRequestHmac method handler []
                          (_hmac_secret self)))).
Proof.
  eexists. split; [apply ExtraHeaders_run |]. split_and!.
  - rewrite dom_insert_L, dom_singleton_L. apply set_eq. intros k.
    rewrite !elem_of_union, !elem_of_singleton. tauto.
  - by rewrite lookup_insert_ne.
  - intros ->. by rewrite lookup_insert_eq.
Qed.

End Headers.
